(** * Football Intelligence: the odds aggregation and ranking engine

    A shallow embedding of [FootballIntelligence.analyze_match] and
    [FootballIntelligence.find_best_bets] of [app.py], and the properties
    of the best-price reduction, the pick selection, the confidence score
    and the cross-league ranking.  The last parts embed the constructor,
    [get_matches_with_odds], [check_setup] and the computations of
    [display_match] and [main] on the ranking.

    Conventions of the embedding.
    - A JSON object read with [d.get(k, default)] is a record whose fields
      are options: [None] is an absent key, [dict_get] supplies the default.
    - A field that the code iterates over holds an [iterable]: a list of
      elements, each an object or not ([NotObject]: null, a number, a
      string, a list), or a value that cannot be iterated ([Null], or
      [Scalar] for a number or boolean that is true).  Iterating over the
      latter raises [TypeError]; [.get] on an element that is not an object
      raises [AttributeError].
    - A Python number is a rational [q], which stands for the binary64 float
      nearest to [q] (for an int, and for a float written by its shortest
      decimal, that is the number itself).  Rounding is monotone, so the
      comparisons and [max] are decided on the rationals; the subtraction of
      the sort key rounds its result to binary64 ([float_sub]).  Infinities
      and NaN are not modelled.
    - A price field is dynamically typed: it may hold a number, a string or
      [None] (JSON null).  Comparing a number with a string or with [None]
      raises [TypeError], so the analysis lives in an error monad.
    - [list.sort] is a stable sort that only uses [<] on the keys; it is
      modelled by a stable insertion sort. *)

From Stdlib Require Import List String Ascii Bool ZArith QArith Qabs Lia Lqa.
From Stdlib Require Import Permutation Sorted.
Import ListNotations.

Local Open Scope string_scope.
Local Open Scope Z_scope.

(** ** Exceptions and the error monad *)

Inductive exn : Type :=
| TypeError
| IndexError
| AttributeError.

Inductive result (A : Type) : Type :=
| Ok (a : A)
| Raise (e : exn).

Arguments Ok {A} a.
Arguments Raise {A} e.

Definition bind {A B : Type} (r : result A) (k : A -> result B) : result B :=
  match r with
  | Ok a => k a
  | Raise e => Raise e
  end.

Notation "x <- r ;; k" := (bind r (fun x => k))
  (at level 61, r at next level, right associativity).

(** A [for] loop whose body may raise: the state is threaded through the
    elements in order and the first exception aborts the loop. *)
Fixpoint for_each {S X : Type} (body : S -> X -> result S) (xs : list X) (s : S)
  : result S :=
  match xs with
  | [] => Ok s
  | x :: xs' => s' <- body s x ;; for_each body xs' s'
  end.

(** ** JSON values that the loops meet *)

(** An element of a JSON list where the code expects an object. *)
Inductive element (A : Type) : Type :=
| Object (a : A)
| NotObject.

Arguments Object {A} a.
Arguments NotObject {A}.

(** The value of a field that the code iterates over.  A string or an
    object in that place is iterated too, and yields strings: it is the list
    of as many [NotObject] elements. *)
Inductive iterable (A : Type) : Type :=
| Items (l : list (element A))
| Null
| Scalar.

Arguments Items {A} l.
Arguments Null {A}.
Arguments Scalar {A}.

(** The elements of a list; nothing for what is not a list. *)
Definition items_of {A : Type} (it : iterable A) : list (element A) :=
  match it with
  | Items l => l
  | Null | Scalar => []
  end.

(** A loop body that starts with [x.get(...)]: it raises [AttributeError]
    on an element that is not an object. *)
Definition visit {S A : Type} (body : S -> A -> result S) (s : S)
  (e : element A) : result S :=
  match e with
  | Object a => body s a
  | NotObject => Raise AttributeError
  end.

(** [for x in it: body], where the body starts with [x.get(...)]. *)
Definition for_items {S A : Type} (body : S -> A -> result S)
  (it : iterable A) (s : S) : result S :=
  match it with
  | Items l => for_each (visit body) l s
  | Null | Scalar => Raise TypeError
  end.

(** ** Python primitives *)

(** [d.get(k, default)] on a field that may be absent. *)
Definition dict_get {A : Type} (field : option A) (default : A) : A :=
  match field with
  | Some v => v
  | None => default
  end.

(** The values a price field can hold. *)
Inductive pyval : Type :=
| PNum (q : Q)
| PStr (s : string)
| PNone.

Definition Qlt_bool (x y : Q) : bool := negb (Qle_bool y x).

(** [max(a, b)] with [a] a number: Python returns [b] when [b > a] and [a]
    otherwise; the comparison raises [TypeError] unless [b] is a number. *)
Definition py_max (a : Q) (b : pyval) : result Q :=
  match b with
  | PNum q => Ok (if Qlt_bool a q then q else a)
  | PStr _ | PNone => Raise TypeError
  end.

(** [name == team] where [name] came from [outcome.get('name')]: an absent
    name is [None], which equals no string. *)
Definition name_eqb (name : option string) (team : string) : bool :=
  match name with
  | Some n => String.eqb n team
  | None => false
  end.

(** [str.upper] on ASCII letters. *)
Definition upper_ascii (c : ascii) : ascii :=
  let n := nat_of_ascii c in
  if (Nat.leb 97 n && Nat.leb n 122)%bool then ascii_of_nat (n - 32) else c.

Fixpoint upper (s : string) : string :=
  match s with
  | EmptyString => EmptyString
  | String c s' => String (upper_ascii c) (upper s')
  end.

(** *** Binary64 arithmetic *)

(** The integer nearest to [a / b], ties to even, for [0 <= a] and [0 < b]. *)
Definition round_half_even (a b : Z) : Z :=
  let q := a / b in
  let r := a mod b in
  match 2 * r ?= b with
  | Lt => q
  | Gt => q + 1
  | Eq => if Z.even q then q else q + 1
  end.

(** [floor (log2 (n / d))] for positive [n] and [d]. *)
Definition floor_log2 (n d : Z) : Z :=
  let k := Z.log2 n - Z.log2 d in
  if (if 0 <=? k then d * 2 ^ k <=? n else d <=? n * 2 ^ (- k)) then k
  else k - 1.

(** The binary64 float nearest to [n / d] (53 bits of precision, exponent
    at least -1074, ties to even), as a rational. *)
Definition to_double_pos (n d : Z) : Q :=
  let e := Z.max (floor_log2 n d - 52) (-1074) in
  let m := if 0 <=? e then round_half_even n (d * 2 ^ e)
           else round_half_even (n * 2 ^ (- e)) d in
  if 0 <=? e then inject_Z (m * 2 ^ e) else Qmake m (Z.to_pos (2 ^ (- e))).

Definition to_double (q : Q) : Q :=
  match Qnum q with
  | Z0 => 0%Q
  | Zpos n => to_double_pos (Zpos n) (Zpos (Qden q))
  | Zneg n => Qopp (to_double_pos (Zpos n) (Zpos (Qden q)))
  end.

(** [a - b] on floats: the exact difference of the two floats, rounded. *)
Definition float_sub (a b : Q) : Q :=
  to_double (to_double a - to_double b).

Arguments to_double : simpl never.
Arguments float_sub : simpl never.

(** [list.sort(key=...)]: [lt x y] says that the key of [x] is strictly
    below the key of [y].  An element is inserted after the elements that
    are strictly below it and before all the others, so elements with equal
    keys keep their order.  With [reverse=True] Python keeps that stability,
    which is the same sort with the comparison flipped. *)
Section Sort.
Context {A : Type}.
Variable lt : A -> A -> bool.

Fixpoint insert (x : A) (l : list A) : list A :=
  match l with
  | [] => [x]
  | y :: l' => if lt y x then y :: insert x l' else x :: y :: l'
  end.

Fixpoint sort (l : list A) : list A :=
  match l with
  | [] => []
  | x :: l' => insert x (sort l')
  end.

(** [not_after x y]: the sort may leave [x] before [y]. *)
Definition not_after (x y : A) : Prop := lt y x = false.
End Sort.

(** ** The data model: one fixture as the odds API returns it *)

Record Outcome : Type := mkOutcome {
  o_name : option string;
  o_price : option pyval
}.

Record Market : Type := mkMarket {
  mk_key : option string;
  mk_outcomes : option (iterable Outcome)
}.

Record Bookmaker : Type := mkBookmaker {
  bk_markets : option (iterable Market)
}.

(** For [bookmakers], which line 65 tests before the loop, [Null] is any
    value that is false and not a list (null, 0, false). *)
Record Match : Type := mkMatch {
  home_team : option string;
  away_team : option string;
  commence_time : option string;
  bookmakers : option (iterable Bookmaker)
}.

(** [best_odds]: the dict [{'home': _, 'draw': _, 'away': _}]. *)
Record BestOdds : Type := mkBestOdds {
  bo_home : Q;
  bo_draw : Q;
  bo_away : Q
}.

(** [best_odds.items()], in the insertion order of the dict literal. *)
Definition items (best_odds : BestOdds) : list (string * Q) :=
  [("home", bo_home best_odds); ("draw", bo_draw best_odds);
   ("away", bo_away best_odds)].

Record Pick : Type := mkPick {
  pick : string;
  odds : Q;
  confidence : Z
}.

Record Analysis : Type := mkAnalysis {
  a_match : string;
  a_commence_time : string;
  a_odds : BestOdds;
  recommendation : Pick
}.

(** ** analyze_match *)

Definition initial_best_odds : BestOdds := mkBestOdds 0 0 0.

(** Lines 75-83: one outcome of an h2h market is folded into [best_odds]. *)
Definition update_best_odds (home away : string) (best_odds : BestOdds)
  (outcome : Outcome) : result BestOdds :=
  let name := o_name outcome in
  let price := dict_get (o_price outcome) (PNum 0) in
  if name_eqb name home then
    v <- py_max (bo_home best_odds) price ;;
    Ok (mkBestOdds v (bo_draw best_odds) (bo_away best_odds))
  else if name_eqb name away then
    v <- py_max (bo_away best_odds) price ;;
    Ok (mkBestOdds (bo_home best_odds) (bo_draw best_odds) v)
  else
    v <- py_max (bo_draw best_odds) price ;;
    Ok (mkBestOdds (bo_home best_odds) v (bo_away best_odds)).

(** Lines 72-83: the markets of one bookmaker; only h2h markets are read. *)
Definition update_from_market (home away : string) (best_odds : BestOdds)
  (market : Market) : result BestOdds :=
  if name_eqb (mk_key market) "h2h" then
    for_items (update_best_odds home away)
      (dict_get (mk_outcomes market) (Items [])) best_odds
  else Ok best_odds.

Definition update_from_bookmaker (home away : string) (best_odds : BestOdds)
  (bookmaker : Bookmaker) : result BestOdds :=
  let markets := dict_get (bk_markets bookmaker) (Items []) in
  for_items (update_from_market home away) markets best_odds.

(** Lines 68-83: the best-price reduction over all bookmakers. *)
Definition reduce_bookmakers (home away : string)
  (bks : iterable Bookmaker) : result BestOdds :=
  for_items (update_from_bookmaker home away) bks initial_best_odds.

(** [1.80 <= odd <= 2.20] *)
Definition in_band (odd : Q) : bool :=
  (Qle_bool 1.80 odd && Qle_bool odd 2.20)%bool.

(** Lines 89-94: the confidence before the clamp. *)
Definition raw_confidence (outcome : string) (odd : Q) : Z :=
  let confidence := 50 in
  let confidence := if Qlt_bool odd 2.05 then confidence + 10 else confidence in
  let confidence := if String.eqb outcome "home" then confidence + 5 else confidence in
  confidence.

(** Lines 86-100: the candidate picks, in the order of [best_odds.items()]. *)
Definition make_picks (best_odds : BestOdds) : list Pick :=
  flat_map
    (fun item : string * Q =>
       let (outcome, odd) := item in
       if in_band odd then
         [mkPick (upper outcome) odd (Z.min (raw_confidence outcome odd) 85)]
       else [])
    (items best_odds).

(** The sort key of line 105: [abs(x['odds'] - target_odds)], a float. *)
Definition distance (target_odds : Q) (x : Pick) : Q :=
  Qabs (float_sub (odds x) target_odds).

Definition closer (target_odds : Q) (x y : Pick) : bool :=
  Qlt_bool (distance target_odds x) (distance target_odds y).

(** Line 105: [picks.sort(key=lambda x: abs(x['odds'] - target_odds))]. *)
Definition sort_picks (target_odds : Q) (picks : list Pick) : list Pick :=
  sort (closer target_odds) picks.

(** Line 65, [not bookmakers]: an empty list and a false value. *)
Definition falsy {A : Type} (it : iterable A) : bool :=
  match it with
  | Items [] | Null => true
  | Items (_ :: _) | Scalar => false
  end.

Definition analyze_match (match_ : Match) (target_odds : Q)
  : result (option Analysis) :=
  let home := dict_get (home_team match_) "Unknown" in
  let away := dict_get (away_team match_) "Unknown" in
  let bks := dict_get (bookmakers match_) (Items []) in
  if falsy bks then Ok None
  else
    best_odds <- reduce_bookmakers home away bks ;;
    let picks := make_picks best_odds in
    match picks with
    | [] => Ok None
    | _ :: _ =>
      match nth_error (sort_picks target_odds picks) 0 with
      | None => Raise IndexError
      | Some best =>
        Ok (Some (mkAnalysis (home ++ " vs " ++ away)
                    (dict_get (commence_time match_) "Unknown")
                    best_odds best))
      end
    end.

(** ** find_best_bets *)

(** Lines 121-124: the fixtures of one league; [matches[:5]] is [firstn 5]. *)
Definition analyze_into (target_odds : Q) (all_picks : list Analysis)
  (match_ : Match) : result (list Analysis) :=
  analysis <- analyze_match match_ target_odds ;;
  match analysis with
  | Some a => Ok (all_picks ++ [a])%list
  | None => Ok all_picks
  end.

Definition analyze_league (get_matches_with_odds : string -> list Match)
  (target_odds : Q) (all_picks : list Analysis) (league : string)
  : result (list Analysis) :=
  let matches := get_matches_with_odds league in
  for_each (analyze_into target_odds) (firstn 5 matches) all_picks.

(** Lines 116-124: [all_picks] when the loops are over. *)
Definition collect_picks (get_matches_with_odds : string -> list Match)
  (leagues : list string) (target_odds : Q) : result (list Analysis) :=
  for_each (analyze_league get_matches_with_odds target_odds) leagues [].

Definition more_confident (x y : Analysis) : bool :=
  confidence (recommendation y) <? confidence (recommendation x).

(** [get_matches_with_odds] performs the HTTP request and returns [[]] on any
    failure; the embedding takes it as a function from the league to the
    fixtures it returned. *)
Definition find_best_bets (get_matches_with_odds : string -> list Match)
  (leagues : list string) (target_odds : Q) : result (list Analysis) :=
  all_picks <- collect_picks get_matches_with_odds leagues target_odds ;;
  Ok (sort more_confident all_picks).

(** [best_odds] of lines 68-83 for a fixture, with the team names that
    [analyze_match] reads at lines 61-62.  A [bookmakers] value that is
    false is no bookmaker, as at line 65: the record keeps its initial
    values. *)
Definition best_odds_of (match_ : Match) : result BestOdds :=
  let bks := dict_get (bookmakers match_) (Items []) in
  if falsy bks then Ok initial_best_odds
  else
    reduce_bookmakers (dict_get (home_team match_) "Unknown")
      (dict_get (away_team match_) "Unknown") bks.

(** * Vocabulary of the statements *)

(** The label of line 108: [f"{home} vs {away}"]. *)
Definition label (match_ : Match) : string :=
  dict_get (home_team match_) "Unknown" ++ " vs "
  ++ dict_get (away_team match_) "Unknown".

(** The score as the specification words it: 50, plus 10 below 2.05, plus 5
    for the home outcome, capped at 85. *)
Definition spec_confidence (outcome : string) (price : Q) : Z :=
  Z.min (50 + (if Qlt_le_dec price 2.05 then 10 else 0)
            + (if string_dec outcome "home" then 5 else 0)) 85.

(** [match] with one more bookmaker quote at the end of its list; a
    [bookmakers] value that is no list and not false is left as it is. *)
Definition add_bookmaker (match_ : Match) (bookmaker : Bookmaker) : Match :=
  match dict_get (bookmakers match_) (Items []) with
  | Scalar => match_
  | bks =>
    mkMatch (home_team match_) (away_team match_) (commence_time match_)
      (Some (Items (items_of bks ++ [Object bookmaker])%list))
  end.

(** No best price of [b] is above the same price of [b']. *)
Definition le_best_odds (b b' : BestOdds) : Prop :=
  (bo_home b <= bo_home b')%Q /\ (bo_draw b <= bo_draw b')%Q /\
  (bo_away b <= bo_away b')%Q.

(** The price fields that [max] accepts: a number, or nothing (read as 0). *)
Definition numeric_or_absent (price : option pyval) : bool :=
  match price with
  | None | Some (PNum _) => true
  | Some (PStr _) | Some PNone => false
  end.

Definition outcome_ok (outcome : Outcome) : bool :=
  numeric_or_absent (o_price outcome).

(** A value that the loop can iterate over, with elements that are objects
    on which the loop body raises nothing. *)
Definition element_ok {A : Type} (ok : A -> bool) (e : element A) : bool :=
  match e with
  | Object a => ok a
  | NotObject => false
  end.

Definition iterable_ok {A : Type} (ok : A -> bool) (it : iterable A) : bool :=
  match it with
  | Items l => forallb (element_ok ok) l
  | Null | Scalar => false
  end.

(** Only the outcomes of h2h markets are read. *)
Definition market_ok (market : Market) : bool :=
  (negb (name_eqb (mk_key market) "h2h")
   || iterable_ok outcome_ok (dict_get (mk_outcomes market) (Items [])))%bool.

Definition bookmaker_ok (bookmaker : Bookmaker) : bool :=
  iterable_ok market_ok (dict_get (bk_markets bookmaker) (Items [])).

(** The fixtures on which [analyze_match] raises nothing. *)
Definition prices_ok (match_ : Match) : bool :=
  let bks := dict_get (bookmakers match_) (Items []) in
  (falsy bks || iterable_ok bookmaker_ok bks)%bool.

(** The same without the prices: lists of objects wherever the loops
    iterate. *)
Definition market_shape_ok (market : Market) : bool :=
  (negb (name_eqb (mk_key market) "h2h")
   || iterable_ok (fun _ => true) (dict_get (mk_outcomes market) (Items [])))%bool.

Definition bookmaker_shape_ok (bookmaker : Bookmaker) : bool :=
  iterable_ok market_shape_ok (dict_get (bk_markets bookmaker) (Items [])).

Definition shape_ok (match_ : Match) : bool :=
  let bks := dict_get (bookmakers match_) (Items []) in
  (falsy bks || iterable_ok bookmaker_shape_ok bks)%bool.

(** The fixture with every absent price written out as the default 0. *)
Definition default_price (outcome : Outcome) : Outcome :=
  mkOutcome (o_name outcome) (Some (dict_get (o_price outcome) (PNum 0))).

Definition map_element {A B : Type} (f : A -> B) (e : element A) : element B :=
  match e with
  | Object a => Object (f a)
  | NotObject => NotObject
  end.

Definition map_iterable {A B : Type} (f : A -> B) (it : iterable A)
  : iterable B :=
  match it with
  | Items l => Items (map (map_element f) l)
  | Null => Null
  | Scalar => Scalar
  end.

Definition default_market (market : Market) : Market :=
  mkMarket (mk_key market)
    (option_map (map_iterable default_price) (mk_outcomes market)).

Definition default_bookmaker (bookmaker : Bookmaker) : Bookmaker :=
  mkBookmaker (option_map (map_iterable default_market) (bk_markets bookmaker)).

Definition default_prices (match_ : Match) : Match :=
  mkMatch (home_team match_) (away_team match_) (commence_time match_)
    (option_map (map_iterable default_bookmaker) (bookmakers match_)).

(** The analyses that a list of fixtures yields, in the order of the list. *)
Definition analyses_of (target_odds : Q) (matches : list Match) : list Analysis :=
  flat_map
    (fun match_ =>
       match analyze_match match_ target_odds with
       | Ok (Some a) => [a]
       | Ok None | Raise _ => []
       end)
    matches.

(** The fan-out: league after league, and within a league its first five
    fixtures in the order of the data source. *)
Definition fan_out (get_matches_with_odds : string -> list Match)
  (leagues : list string) (target_odds : Q) : list Analysis :=
  flat_map
    (fun league => analyses_of target_odds (firstn 5 (get_matches_with_odds league)))
    leagues.

Definition same_confidence (c : Z) (a : Analysis) : bool :=
  confidence (recommendation a) =? c.

(** * Example fixtures *)

Definition price_line (name : string) (price : Q) : Outcome :=
  mkOutcome (Some name) (Some (PNum price)).

(** A JSON list of objects. *)
Definition objects {A : Type} (l : list A) : iterable A :=
  Items (map Object l).

(** One bookmaker with one h2h market. *)
Definition h2h_quote (outcomes : list Outcome) : Bookmaker :=
  mkBookmaker (Some (objects [mkMarket (Some "h2h") (Some (objects outcomes))])).

Definition fixture (home away : string) (bks : list Bookmaker) : Match :=
  mkMatch (Some home) (Some away) None (Some (objects bks)).

(** Arsenal v Chelsea with the quote [Arsenal 2.00, Draw 3.40, Chelsea 3.60]. *)
Definition arsenal_chelsea : Match :=
  fixture "Arsenal" "Chelsea"
    [h2h_quote [price_line "Arsenal" 2.00; price_line "Draw" 3.40;
                price_line "Chelsea" 3.60]].

Definition arsenal_chelsea_analysis : Analysis :=
  mkAnalysis "Arsenal vs Chelsea" "Unknown" (mkBestOdds 2.00 3.40 3.60)
    (mkPick "HOME" 2.00 65).

(** A fixture whose only quoted line is the home or the away team's. *)
Definition home_only (price : Q) : Match :=
  fixture "Arsenal" "Chelsea" [h2h_quote [price_line "Arsenal" price]].

Definition away_only (price : Q) : Match :=
  fixture "Arsenal" "Chelsea" [h2h_quote [price_line "Chelsea" price]].

(** A fixture with the home price 1.85 and the away price 2.10. *)
Definition two_in_band : Match :=
  fixture "Arsenal" "Chelsea"
    [h2h_quote [price_line "Arsenal" 1.85; price_line "Draw" 3.40;
                price_line "Chelsea" 2.10]].

(** A second quote that improves the home price only. *)
Definition second_quote : Bookmaker :=
  h2h_quote [price_line "Arsenal" 2.10; price_line "Draw" 3.30;
             price_line "Chelsea" 3.50].

(** A fixture whose home line carries its price as a string. *)
Definition string_price : Match :=
  fixture "Arsenal" "Chelsea"
    [h2h_quote [mkOutcome (Some "Arsenal") (Some (PStr "2.00"))]].

(** A fixture whose away line has no price at all. *)
Definition absent_price : Match :=
  fixture "Arsenal" "Chelsea"
    [h2h_quote [price_line "Arsenal" 2.00; mkOutcome (Some "Chelsea") None]].

(** Two leagues for the examples: the first yields the confidences 60 and
    55, the second the confidences 60 and 65. *)
Definition leeds_everton (bks : list Bookmaker) : Match :=
  fixture "Leeds" "Everton" bks.

Definition two_leagues (league : string) : list Match :=
  if (league =? "soccer_epl")%string then
    [away_only 2.00; home_only 2.10]
  else if (league =? "soccer_spain_la_liga")%string then
    [leeds_everton [h2h_quote [price_line "Everton" 2.00]];
     leeds_everton [h2h_quote [price_line "Leeds" 2.00]]]
  else [].

Definition analysis_of (label : string) (best_odds : BestOdds) (p : Pick)
  : Analysis :=
  mkAnalysis label "Unknown" best_odds p.

(** A league of eight fixtures; the sixth carries a string as its price. *)
Definition eight_fixtures (league : string) : list Match :=
  [home_only 2.00; home_only 2.00; home_only 2.00; home_only 2.00;
   home_only 2.00; string_price; home_only 2.00; home_only 2.00].

(** * The lines of a fixture *)

(** The objects among the elements of a list. *)
Definition objects_of {A : Type} (it : iterable A) : list A :=
  flat_map (fun e => match e with Object a => [a] | NotObject => [] end)
    (items_of it).

(** The outcome lines that the loops of lines 70-83 visit, in the order they
    visit them: the outcomes of the h2h markets of every bookmaker. *)
Definition lines_of_market (market : Market) : list Outcome :=
  if name_eqb (mk_key market) "h2h" then
    objects_of (dict_get (mk_outcomes market) (Items []))
  else [].

Definition lines_of_bookmaker (bookmaker : Bookmaker) : list Outcome :=
  flat_map lines_of_market
    (objects_of (dict_get (bk_markets bookmaker) (Items []))).

Definition lines_of (match_ : Match) : list Outcome :=
  flat_map lines_of_bookmaker
    (objects_of (dict_get (bookmakers match_) (Items []))).

(** The key of [best_odds] that lines 78-83 choose for an outcome line. *)
Inductive slot : Type :=
| SHome
| SDraw
| SAway.

Definition slot_of (home away : string) (outcome : Outcome) : slot :=
  if name_eqb (o_name outcome) home then SHome
  else if name_eqb (o_name outcome) away then SAway
  else SDraw.

Definition best_price (s : slot) (best_odds : BestOdds) : Q :=
  match s with
  | SHome => bo_home best_odds
  | SDraw => bo_draw best_odds
  | SAway => bo_away best_odds
  end.

(** The price of a line as line 76 reads it. *)
Definition price_of (outcome : Outcome) : pyval :=
  dict_get (o_price outcome) (PNum 0).

(** The fixture with its bookmakers replaced. *)
Definition with_bookmakers (match_ : Match) (bks : iterable Bookmaker) : Match :=
  mkMatch (home_team match_) (away_team match_) (commence_time match_)
    (Some bks).

(** The fixture without the markets that are not h2h. *)
Definition h2h_only_market (market : element Market) : bool :=
  match market with
  | Object m => name_eqb (mk_key m) "h2h"
  | NotObject => true
  end.

Definition h2h_only_bookmaker (bookmaker : Bookmaker) : Bookmaker :=
  match bk_markets bookmaker with
  | Some (Items markets) => mkBookmaker (Some (Items (filter h2h_only_market markets)))
  | _ => bookmaker
  end.

Definition h2h_only (match_ : Match) : Match :=
  with_bookmakers match_
    (map_iterable h2h_only_bookmaker (dict_get (bookmakers match_) (Items []))).

(** * Facts about the primitives *)

Lemma Qlt_bool_iff (x y : Q) : Qlt_bool x y = true <-> (x < y)%Q.
Proof.
  unfold Qlt_bool. rewrite negb_true_iff. split.
  - intros H. apply Qnot_le_lt. intros Hle.
    apply Qle_bool_iff in Hle. congruence.
  - intros H. destruct (Qle_bool y x) eqn:E; [|reflexivity].
    apply Qle_bool_iff in E. exfalso. exact (Qlt_not_le _ _ H E).
Qed.

Lemma Qlt_bool_false_iff (x y : Q) : Qlt_bool x y = false <-> (y <= x)%Q.
Proof.
  unfold Qlt_bool. rewrite negb_false_iff. apply Qle_bool_iff.
Qed.

Lemma in_band_iff (odd : Q) : in_band odd = true <-> (1.80 <= odd <= 2.20)%Q.
Proof.
  unfold in_band. rewrite andb_true_iff, !Qle_bool_iff. reflexivity.
Qed.

Lemma bind_Ok {A B : Type} (r : result A) (k : A -> result B) (b : B) :
  bind r k = Ok b -> exists a, r = Ok a /\ k a = Ok b.
Proof.
  destruct r as [a|e]; simpl; intros H; [eauto | discriminate].
Qed.

Lemma for_each_app {S X : Type} (body : S -> X -> result S) (xs ys : list X)
  (s : S) :
  for_each body (xs ++ ys)%list s = s' <- for_each body xs s ;; for_each body ys s'.
Proof.
  revert s. induction xs as [|x xs IH]; intros s; simpl; [reflexivity|].
  destruct (body s x) as [s1|e]; simpl; [apply IH | reflexivity].
Qed.

(** A loop invariant that every iteration maintains holds when the loop is
    over. *)
Lemma for_each_invariant {S X : Type} (body : S -> X -> result S)
  (I : S -> Prop) (xs : list X) :
  (forall s x s', In x xs -> I s -> body s x = Ok s' -> I s') ->
  forall s s', I s -> for_each body xs s = Ok s' -> I s'.
Proof.
  induction xs as [|x xs IH]; intros Hstep s s' Hs Hrun; simpl in Hrun.
  - injection Hrun as <-. exact Hs.
  - apply bind_Ok in Hrun as (s1 & H1 & H2).
    apply (IH (fun s0 y s0' Hy => Hstep s0 y s0' (or_intror Hy)) s1 s');
      [|exact H2].
    apply (Hstep s x s1); [left; reflexivity | exact Hs | exact H1].
Qed.

(** ** The stable sort *)

Section SortFacts.
Context {A : Type}.
Variable lt : A -> A -> bool.

Lemma insert_perm (x : A) (l : list A) : Permutation (insert lt x l) (x :: l).
Proof.
  induction l as [|y l IH]; simpl; [apply Permutation_refl|].
  destruct (lt y x).
  - apply perm_trans with (y :: x :: l);
      [apply perm_skip, IH | apply perm_swap].
  - apply Permutation_refl.
Qed.

Lemma sort_perm (l : list A) : Permutation (sort lt l) l.
Proof.
  induction l as [|x l IH]; simpl; [apply perm_nil|].
  apply perm_trans with (x :: sort lt l);
    [apply insert_perm | apply perm_skip, IH].
Qed.

Lemma sort_In (l : list A) (x : A) : In x (sort lt l) <-> In x l.
Proof.
  split; apply Permutation_in;
    [apply sort_perm | apply Permutation_sym, sort_perm].
Qed.

(** Stability: the elements of a class that the order does not separate
    come out in the order they came in. *)
Section Stable.
Variable P : A -> bool.
Hypothesis P_unordered :
  forall x y, P x = true -> P y = true -> lt x y = false.

Lemma insert_filter (x : A) (l : list A) :
  filter P (insert lt x l) = filter P (x :: l).
Proof.
  induction l as [|y l IH]; [reflexivity|].
  simpl insert. destruct (lt y x) eqn:Hyx; [|reflexivity].
  simpl in *. rewrite IH.
  destruct (P x) eqn:Hx, (P y) eqn:Hy; try reflexivity.
  rewrite (P_unordered y x Hy Hx) in Hyx. discriminate.
Qed.

Lemma sort_filter (l : list A) : filter P (sort lt l) = filter P l.
Proof.
  induction l as [|x l IH]; [reflexivity|].
  simpl sort. rewrite insert_filter. simpl. rewrite IH. reflexivity.
Qed.
End Stable.

(** Sortedness, for a comparison that is a strict weak order. *)
Section Sorted.
Hypothesis lt_asym : forall x y, lt x y = true -> lt y x = false.
Hypothesis le_trans :
  forall x y z, lt y x = false -> lt z y = false -> lt z x = false.

Lemma insert_sorted (x : A) (l : list A) :
  StronglySorted (not_after lt) l -> StronglySorted (not_after lt) (insert lt x l).
Proof.
  induction 1 as [|y l Hl IH Hy]; simpl.
  - constructor; constructor.
  - destruct (lt y x) eqn:Hyx.
    + constructor; [exact IH|].
      apply Forall_forall. intros z Hz.
      apply (Permutation_in _ (insert_perm x l)) in Hz.
      destruct Hz as [<-|Hz].
      * apply lt_asym. exact Hyx.
      * rewrite Forall_forall in Hy. apply Hy. exact Hz.
    + constructor; [constructor; assumption|].
      constructor; [exact Hyx|].
      apply Forall_forall. intros z Hz.
      rewrite Forall_forall in Hy.
      apply (le_trans x y z); [exact Hyx | apply Hy; exact Hz].
Qed.

Lemma sort_sorted (l : list A) : StronglySorted (not_after lt) (sort lt l).
Proof.
  induction l as [|x l IH]; simpl; [constructor | apply insert_sorted, IH].
Qed.

Lemma lt_irrefl (x : A) : lt x x = false.
Proof.
  destruct (lt x x) eqn:E; [|reflexivity].
  rewrite (lt_asym x x E) in E. discriminate.
Qed.

(** The head of the sorted list is not after any element of the input. *)
Lemma sort_head (l : list A) (h : A) (rest : list A) :
  sort lt l = h :: rest -> forall x, In x l -> lt x h = false.
Proof.
  intros Hs x Hx. apply sort_In in Hx. rewrite Hs in Hx.
  pose proof (sort_sorted l) as Hsorted. rewrite Hs in Hsorted.
  inversion Hsorted as [|? ? _ Hall]; subst.
  destruct Hx as [<-|Hx]; [apply lt_irrefl|].
  rewrite Forall_forall in Hall. apply Hall. exact Hx.
Qed.
End Sorted.
End SortFacts.

(** * Facts about analyze_match *)

Lemma make_picks_In (best_odds : BestOdds) (p : Pick) :
  In p (make_picks best_odds) <->
  exists outcome odd,
    In (outcome, odd) (items best_odds) /\ in_band odd = true /\
    p = mkPick (upper outcome) odd (Z.min (raw_confidence outcome odd) 85).
Proof.
  unfold make_picks. rewrite in_flat_map. split.
  - intros ([outcome odd] & Hin & Hp).
    destruct (in_band odd) eqn:Hband; [|contradiction].
    destruct Hp as [<-|[]]. exists outcome, odd. auto.
  - intros (outcome & odd & Hin & Hband & ->).
    exists (outcome, odd). split; [exact Hin|].
    rewrite Hband. left. reflexivity.
Qed.

Lemma sort_picks_nil (target_odds : Q) (picks : list Pick) :
  sort_picks target_odds picks = [] <-> picks = [].
Proof.
  unfold sort_picks. split.
  - intros H. apply Permutation_nil.
    rewrite <- H. apply sort_perm.
  - intros ->. reflexivity.
Qed.

(** What [analyze_match] returns, phase by phase. *)
Lemma analyze_match_cases (match_ : Match) (target_odds : Q) :
  match best_odds_of match_ with
  | Raise e => analyze_match match_ target_odds = Raise e
  | Ok best_odds =>
    match sort_picks target_odds (make_picks best_odds) with
    | [] => analyze_match match_ target_odds = Ok None
    | best :: _ =>
      analyze_match match_ target_odds =
      Ok (Some (mkAnalysis (label match_)
                  (dict_get (commence_time match_) "Unknown")
                  best_odds best))
    end
  end.
Proof.
  unfold analyze_match, best_odds_of, label.
  destruct (falsy (dict_get (bookmakers match_) (Items []))); [reflexivity|].
  destruct (reduce_bookmakers _ _ _) as [best_odds|e]; simpl; [|reflexivity].
  destruct (make_picks best_odds) as [|p picks] eqn:Hpicks; [reflexivity|].
  destruct (sort_picks target_odds (p :: picks)) as [|best rest] eqn:Hsort.
  - apply sort_picks_nil in Hsort. discriminate.
  - reflexivity.
Qed.

(** An analysis that is returned recommends the head of the sorted
    candidates of the fixture's best prices. *)
Lemma analyze_match_Some (match_ : Match) (target_odds : Q) (a : Analysis) :
  analyze_match match_ target_odds = Ok (Some a) ->
  exists rest,
    best_odds_of match_ = Ok (a_odds a) /\
    sort_picks target_odds (make_picks (a_odds a)) = recommendation a :: rest /\
    a_match a = label match_ /\
    a_commence_time a = dict_get (commence_time match_) "Unknown".
Proof.
  intros H. pose proof (analyze_match_cases match_ target_odds) as Hc.
  rewrite H in Hc.
  destruct (best_odds_of match_) as [best_odds|e]; [|discriminate].
  destruct (sort_picks target_odds (make_picks best_odds)) as [|best rest]
    eqn:Hsort; [discriminate|].
  injection Hc as ->. simpl. exists rest. auto.
Qed.

Lemma recommendation_In (match_ : Match) (target_odds : Q) (a : Analysis) :
  analyze_match match_ target_odds = Ok (Some a) ->
  In (recommendation a) (make_picks (a_odds a)).
Proof.
  intros H. apply analyze_match_Some in H as (rest & _ & Hsort & _).
  apply (sort_In (closer target_odds)).
  unfold sort_picks in Hsort. rewrite Hsort. left. reflexivity.
Qed.

(** * The confidence score *)

Lemma raw_confidence_values (outcome : string) (odd : Q) :
  In (raw_confidence outcome odd) [50; 55; 60; 65].
Proof.
  unfold raw_confidence.
  destruct (Qlt_bool odd 2.05), (outcome =? "home")%string; simpl; auto.
Qed.

Lemma raw_confidence_spec (outcome : string) (odd : Q) :
  Z.min (raw_confidence outcome odd) 85 = spec_confidence outcome odd.
Proof.
  unfold raw_confidence, spec_confidence. f_equal.
  assert (H1 : (if Qlt_bool odd 2.05 then 50 + 10 else 50)
               = 50 + (if Qlt_le_dec odd 2.05 then 10 else 0)).
  { destruct (Qlt_le_dec odd 2.05) as [Hlt|Hle].
    - apply Qlt_bool_iff in Hlt. rewrite Hlt. reflexivity.
    - apply Qlt_bool_false_iff in Hle. rewrite Hle. reflexivity. }
  rewrite H1.
  destruct (string_dec outcome "home") as [->|Hne].
  - reflexivity.
  - apply String.eqb_neq in Hne. rewrite Hne. lia.
Qed.

Lemma spec_confidence_bounds (outcome : string) (price : Q) :
  50 <= spec_confidence outcome price <= 85.
Proof.
  unfold spec_confidence.
  destruct (Qlt_le_dec price 2.05), (string_dec outcome "home"); lia.
Qed.

(** * Claims *)

(** C1. Band invariant: when [analyze_match] returns an analysis, the price
    of its recommended pick lies in the closed interval [1.80, 2.20]; when
    the three best prices of the fixture are all outside that interval no
    analysis is returned; a price of exactly 2.20 is in the band and 2.21 is
    not. *)
Theorem band_invariant (match_ : Match) (target_odds : Q) :
  (forall a, analyze_match match_ target_odds = Ok (Some a) ->
     (1.80 <= odds (recommendation a) <= 2.20)%Q) /\
  (forall best_odds, best_odds_of match_ = Ok best_odds ->
     ~ (1.80 <= bo_home best_odds <= 2.20)%Q ->
     ~ (1.80 <= bo_draw best_odds <= 2.20)%Q ->
     ~ (1.80 <= bo_away best_odds <= 2.20)%Q ->
     analyze_match match_ target_odds = Ok None) /\
  in_band 2.20 = true /\ in_band 2.21 = false.
Proof.
  split; [|split; [|split; reflexivity]].
  - intros a H. apply recommendation_In in H.
    apply make_picks_In in H as (outcome & odd & _ & Hband & ->).
    simpl. apply in_band_iff. exact Hband.
  - intros best_odds Hbest Hh Hd Ha.
    pose proof (analyze_match_cases match_ target_odds) as Hc.
    rewrite Hbest in Hc.
    assert (Hnone : make_picks best_odds = []).
    { unfold make_picks, items. simpl.
      rewrite <- in_band_iff in Hh, Hd, Ha.
      apply not_true_is_false in Hh, Hd, Ha.
      rewrite Hh, Hd, Ha. reflexivity. }
    rewrite Hnone in Hc. exact Hc.
Qed.

Lemma band_invariant_witness :
  analyze_match arsenal_chelsea 2 = Ok (Some arsenal_chelsea_analysis) /\
  (1.80 <= odds (recommendation arsenal_chelsea_analysis) <= 2.20)%Q /\
  analyze_match (home_only 2.20) 2
  = Ok (Some (mkAnalysis "Arsenal vs Chelsea" "Unknown" (mkBestOdds 2.20 0 0)
                (mkPick "HOME" 2.20 55))) /\
  analyze_match (home_only 2.21) 2 = Ok None.
Proof.
  split; [reflexivity|]. split; [|split].
  - apply (proj1 (band_invariant arsenal_chelsea 2) arsenal_chelsea_analysis).
    reflexivity.
  - reflexivity.
  - apply (proj1 (proj2 (band_invariant (home_only 2.21) 2))
             (mkBestOdds 2.21 0 0)).
    + reflexivity.
    + simpl. intros [_ H]. revert H. apply Qlt_not_le. reflexivity.
    + simpl. intros [H _]. revert H. apply Qlt_not_le. reflexivity.
    + simpl. intros [H _]. revert H. apply Qlt_not_le. reflexivity.
Defined.

(** C2. Confidence: for every outcome of the best-price record whose price is
    in the band, the candidate built for it carries the confidence 50, plus
    10 if the price is strictly below 2.05, plus 5 if the outcome is the home
    one, capped at 85; hence the confidence of every recommended pick lies
    between 50 and 85. *)
Theorem confidence_formula (best_odds : BestOdds) (outcome : string) (odd : Q) :
  In (outcome, odd) (items best_odds) ->
  (1.80 <= odd <= 2.20)%Q ->
  In (mkPick (upper outcome) odd (spec_confidence outcome odd))
     (make_picks best_odds) /\
  (forall p, In p (make_picks best_odds) ->
     pick p = upper outcome -> odds p = odd ->
     confidence p = spec_confidence outcome odd) /\
  (forall match_ target_odds a,
     analyze_match match_ target_odds = Ok (Some a) ->
     (exists outcome',
        In (outcome', odds (recommendation a)) (items (a_odds a)) /\
        pick (recommendation a) = upper outcome' /\
        confidence (recommendation a)
        = spec_confidence outcome' (odds (recommendation a))) /\
     50 <= confidence (recommendation a) <= 85).
Proof.
  intros Hin Hband. split; [|split].
  - apply make_picks_In. exists outcome, odd.
    rewrite raw_confidence_spec. rewrite in_band_iff. auto.
  - intros p Hp Hpick Hodds.
    apply make_picks_In in Hp as (outcome' & odd' & Hin' & _ & ->).
    simpl in *. subst odd'. rewrite raw_confidence_spec.
    assert (outcome' = outcome) as ->; [|reflexivity].
    unfold items in Hin, Hin'. simpl in Hin, Hin'.
    destruct Hin as [Hin|[Hin|[Hin|[]]]];
      destruct Hin' as [Hin'|[Hin'|[Hin'|[]]]];
      injection Hin as <- _; injection Hin' as <- _;
      vm_compute in Hpick; congruence.
  - intros match_ target_odds a H. apply recommendation_In in H.
    apply make_picks_In in H as (outcome' & odd' & Hin' & _ & ->).
    simpl. rewrite raw_confidence_spec.
    split; [exists outcome'; auto | apply spec_confidence_bounds].
Qed.

Lemma confidence_formula_witness :
  In (mkPick "HOME" 2.00 65) (make_picks (mkBestOdds 2.00 3.40 3.60)) /\
  analyze_match arsenal_chelsea 2 = Ok (Some arsenal_chelsea_analysis) /\
  50 <= confidence (recommendation arsenal_chelsea_analysis) <= 85.
Proof.
  assert (Hband : (1.80 <= 2.00 <= 2.20)%Q).
  { split; unfold Qle; simpl; lia. }
  split; [|split].
  - apply (proj1 (confidence_formula (mkBestOdds 2.00 3.40 3.60) "home" 2.00
                    (or_introl eq_refl) Hband)).
  - reflexivity.
  - apply (proj2 (proj2 (confidence_formula (mkBestOdds 2.00 3.40 3.60)
                           "home" 2.00 (or_introl eq_refl) Hband))
             arsenal_chelsea 2%Q arsenal_chelsea_analysis eq_refl).
Defined.

(** C8. A fixture without bookmakers (an empty or absent list, or null)
    yields no analysis, whatever the target price, and nothing is raised. *)
Theorem no_bookmakers_no_analysis (match_ : Match) (target_odds : Q) :
  dict_get (bookmakers match_) (Items []) = Items [] \/
  dict_get (bookmakers match_) (Items []) = Null ->
  analyze_match match_ target_odds = Ok None.
Proof.
  intros H. unfold analyze_match. destruct H as [-> | ->]; reflexivity.
Qed.

Lemma no_bookmakers_no_analysis_witness :
  analyze_match (fixture "Arsenal" "Chelsea" []) 2 = Ok None /\
  analyze_match (mkMatch None None None None) 2 = Ok None /\
  analyze_match (mkMatch None None None (Some Null)) 2 = Ok None.
Proof.
  split; [|split].
  - apply (no_bookmakers_no_analysis (fixture "Arsenal" "Chelsea" []) 2).
    left. reflexivity.
  - apply (no_bookmakers_no_analysis (mkMatch None None None None) 2).
    left. reflexivity.
  - apply (no_bookmakers_no_analysis (mkMatch None None None (Some Null)) 2).
    right. reflexivity.
Defined.

(** C10. The confidence before the cap is one of 50, 55, 60 and 65, so it is
    at most 65 and the cap at 85 changes nothing; every candidate and every
    recommended pick carries one of these four values, and each of them is
    the confidence of the recommendation of some fixture. *)
Theorem confidence_at_most_65 :
  (forall outcome odd,
     raw_confidence outcome odd <= 65 /\
     Z.min (raw_confidence outcome odd) 85 = raw_confidence outcome odd) /\
  (forall best_odds p, In p (make_picks best_odds) ->
     In (confidence p) [50; 55; 60; 65]) /\
  (forall match_ target_odds a,
     analyze_match match_ target_odds = Ok (Some a) ->
     In (confidence (recommendation a)) [50; 55; 60; 65] /\
     confidence (recommendation a) <= 65) /\
  (forall c, In c [50; 55; 60; 65] ->
     exists match_ a,
       analyze_match match_ 2 = Ok (Some a) /\
       confidence (recommendation a) = c).
Proof.
  assert (Hraw : forall outcome odd,
             raw_confidence outcome odd <= 65 /\
             Z.min (raw_confidence outcome odd) 85 = raw_confidence outcome odd).
  { intros outcome odd.
    pose proof (raw_confidence_values outcome odd) as H. simpl in H. lia. }
  assert (Hpick : forall best_odds p, In p (make_picks best_odds) ->
             In (confidence p) [50; 55; 60; 65]).
  { intros best_odds p Hp.
    apply make_picks_In in Hp as (outcome & odd & _ & _ & ->). simpl.
    rewrite (proj2 (Hraw outcome odd)). apply raw_confidence_values. }
  split; [exact Hraw|]. split; [exact Hpick|]. split.
  - intros match_ target_odds a H. apply recommendation_In in H.
    apply Hpick in H. split; [exact H|]. simpl in H. lia.
  - intros c Hc. simpl in Hc.
    destruct Hc as [<-|[<-|[<-|[<-|[]]]]].
    + exists (away_only 2.10). eexists. split; reflexivity.
    + exists (home_only 2.10). eexists. split; reflexivity.
    + exists (away_only 2.00). eexists. split; reflexivity.
    + exists (home_only 2.00). eexists. split; reflexivity.
Qed.

Lemma confidence_at_most_65_witness :
  analyze_match arsenal_chelsea 2 = Ok (Some arsenal_chelsea_analysis) /\
  confidence (recommendation arsenal_chelsea_analysis) <= 65.
Proof.
  split; [reflexivity|].
  apply (proj1 (proj2 (proj2 confidence_at_most_65))
           arsenal_chelsea 2%Q arsenal_chelsea_analysis eq_refl).
Defined.

(** ** The selection among the candidates *)

Lemma closer_asym (target_odds : Q) (x y : Pick) :
  closer target_odds x y = true -> closer target_odds y x = false.
Proof.
  unfold closer. rewrite Qlt_bool_iff, Qlt_bool_false_iff.
  apply Qlt_le_weak.
Qed.

Lemma closer_trans (target_odds : Q) (x y z : Pick) :
  closer target_odds y x = false -> closer target_odds z y = false ->
  closer target_odds z x = false.
Proof.
  unfold closer. rewrite !Qlt_bool_false_iff. apply Qle_trans.
Qed.

(** C3, as the code has it: with the target 1e16 the float distances of
    1.85 and 2.10 are one and the same float, the sort leaves the home
    candidate first and [analyze_match] recommends it, although 2.10 is in
    the band and strictly closer to the target. *)
Lemma closest_fails_at_large_target :
  analyze_match two_in_band 1e16
  = Ok (Some (mkAnalysis "Arsenal vs Chelsea" "Unknown"
                (mkBestOdds 1.85 3.40 2.10) (mkPick "HOME" 1.85 65))) /\
  In ("away", 2.10%Q) (items (mkBestOdds 1.85 3.40 2.10)) /\
  (1.80 <= 2.10 <= 2.20)%Q /\
  (Qabs (2.10 - 1e16) < Qabs (1.85 - 1e16))%Q /\
  (Qabs (to_double 2.10 - to_double 1e16)
   < Qabs (to_double 1.85 - to_double 1e16))%Q /\
  (Qabs (float_sub 1.85 1e16) == Qabs (float_sub 2.10 1e16))%Q.
Proof.
  split; [vm_compute; reflexivity|].
  split; [right; right; left; reflexivity|].
  split; [split; vm_compute; discriminate|].
  split; [vm_compute; reflexivity|].
  split; vm_compute; reflexivity.
Qed.

(** C3, amended. When some outcome of the best-price record has its price in
    the band, [analyze_match] returns an analysis whose pick is one of the
    in-band outcomes and whose distance to the target price, as the code
    computes it in floating point ([abs(price - target_odds)], a rounded
    subtraction), is minimal among all in-band outcomes; when no outcome
    price is in the band it returns none. *)
Theorem recommendation_is_closest (match_ : Match) (target_odds : Q)
  (best_odds : BestOdds) :
  best_odds_of match_ = Ok best_odds ->
  ((exists outcome odd,
      In (outcome, odd) (items best_odds) /\ (1.80 <= odd <= 2.20)%Q) ->
   exists a,
     analyze_match match_ target_odds = Ok (Some a) /\
     a_odds a = best_odds /\
     (exists outcome,
        In (outcome, odds (recommendation a)) (items best_odds) /\
        pick (recommendation a) = upper outcome) /\
     (1.80 <= odds (recommendation a) <= 2.20)%Q /\
     (forall outcome odd,
        In (outcome, odd) (items best_odds) -> (1.80 <= odd <= 2.20)%Q ->
        (Qabs (float_sub (odds (recommendation a)) target_odds)
         <= Qabs (float_sub odd target_odds))%Q)) /\
  ((forall outcome odd,
      In (outcome, odd) (items best_odds) -> ~ (1.80 <= odd <= 2.20)%Q) ->
   analyze_match match_ target_odds = Ok None).
Proof.
  intros Hbest.
  pose proof (analyze_match_cases match_ target_odds) as Hc.
  rewrite Hbest in Hc. split.
  - intros (outcome0 & odd0 & Hin0 & Hband0).
    assert (Hcand : In (mkPick (upper outcome0) odd0
                          (Z.min (raw_confidence outcome0 odd0) 85))
                       (make_picks best_odds)).
    { apply make_picks_In. exists outcome0, odd0.
      rewrite in_band_iff. auto. }
    destruct (sort_picks target_odds (make_picks best_odds)) as [|best rest]
      eqn:Hsort.
    { apply sort_picks_nil in Hsort. rewrite Hsort in Hcand. destruct Hcand. }
    eexists. split; [exact Hc|]. cbn [a_odds recommendation].
    split; [reflexivity|].
    assert (Hbest_in : In best (make_picks best_odds)).
    { apply (sort_In (closer target_odds)). unfold sort_picks in Hsort.
      rewrite Hsort. left. reflexivity. }
    apply make_picks_In in Hbest_in as (outcome & odd & Hin & Hband & Heq).
    split; [|split].
    + exists outcome. rewrite Heq. cbn [odds pick]. auto.
    + rewrite Heq. cbn [odds]. apply in_band_iff. exact Hband.
    + intros outcome' odd' Hin' Hband'.
      assert (Hp : In (mkPick (upper outcome') odd'
                         (Z.min (raw_confidence outcome' odd') 85))
                      (make_picks best_odds)).
      { apply make_picks_In. exists outcome', odd'.
        rewrite in_band_iff. auto. }
      pose proof (sort_head (closer target_odds) (closer_asym target_odds)
                    (closer_trans target_odds) _ _ _ Hsort _ Hp) as Hmin.
      unfold closer, distance in Hmin. cbn [odds] in Hmin.
      apply Qlt_bool_false_iff in Hmin. exact Hmin.
  - intros Hout.
    assert (Hnone : make_picks best_odds = []).
    { destruct (make_picks best_odds) as [|p picks] eqn:Hpicks;
        [reflexivity|].
      assert (Hp : In p (make_picks best_odds))
        by (rewrite Hpicks; left; reflexivity).
      apply make_picks_In in Hp as (outcome & odd & Hin & Hband & _).
      apply in_band_iff in Hband. destruct (Hout outcome odd Hin Hband). }
    rewrite Hnone in Hc. exact Hc.
Qed.

Lemma recommendation_is_closest_witness :
  best_odds_of two_in_band = Ok (mkBestOdds 1.85 3.40 2.10) /\
  analyze_match two_in_band 2
  = Ok (Some (mkAnalysis "Arsenal vs Chelsea" "Unknown"
                (mkBestOdds 1.85 3.40 2.10) (mkPick "AWAY" 2.10 50))) /\
  (exists a,
     analyze_match two_in_band 2 = Ok (Some a) /\
     a_odds a = mkBestOdds 1.85 3.40 2.10 /\
     (exists outcome,
        In (outcome, odds (recommendation a))
           (items (mkBestOdds 1.85 3.40 2.10)) /\
        pick (recommendation a) = upper outcome) /\
     (1.80 <= odds (recommendation a) <= 2.20)%Q /\
     (forall outcome odd,
        In (outcome, odd) (items (mkBestOdds 1.85 3.40 2.10)) ->
        (1.80 <= odd <= 2.20)%Q ->
        (Qabs (float_sub (odds (recommendation a)) 2)
         <= Qabs (float_sub odd 2))%Q)).
Proof.
  split; [reflexivity|]. split; [reflexivity|].
  apply (proj1 (recommendation_is_closest two_in_band 2
                  (mkBestOdds 1.85 3.40 2.10) eq_refl)).
  exists "home", 1.85%Q. split; [left; reflexivity|].
  split; unfold Qle; simpl; lia.
Defined.

(** ** The target price only orders the candidates *)

Lemma analysis_for_any_target (match_ : Match) (t1 t2 : Q) (a1 : Analysis) :
  analyze_match match_ t1 = Ok (Some a1) ->
  exists a2,
    analyze_match match_ t2 = Ok (Some a2) /\
    a_match a2 = a_match a1 /\
    a_commence_time a2 = a_commence_time a1 /\
    a_odds a2 = a_odds a1 /\
    In (recommendation a2) (make_picks (a_odds a1)).
Proof.
  intros H1. pose proof (analyze_match_Some _ _ _ H1)
    as (rest1 & Hbest & Hsort1 & Hlabel & Htime).
  pose proof (analyze_match_cases match_ t2) as Hc.
  rewrite Hbest in Hc.
  destruct (sort_picks t2 (make_picks (a_odds a1))) as [|best rest2] eqn:Hsort2.
  - apply sort_picks_nil in Hsort2. rewrite Hsort2 in Hsort1. discriminate.
  - eexists. split; [exact Hc|]. simpl. repeat split; auto.
    apply (sort_In (closer t2)). unfold sort_picks in Hsort2.
    rewrite Hsort2. left. reflexivity.
Qed.

Lemma no_analysis_for_any_target (match_ : Match) (t1 t2 : Q) :
  analyze_match match_ t1 = Ok None -> analyze_match match_ t2 = Ok None.
Proof.
  intros H1. destruct (analyze_match match_ t2) as [[a2|]|e] eqn:H2;
    [| reflexivity |].
  - apply (analysis_for_any_target _ t2 t1) in H2 as (a1 & H & _).
    congruence.
  - pose proof (analyze_match_cases match_ t1) as Hc1.
    pose proof (analyze_match_cases match_ t2) as Hc2.
    rewrite H1 in Hc1. rewrite H2 in Hc2.
    destruct (best_odds_of match_) as [best_odds|e']; [|discriminate].
    destruct (sort_picks t2 (make_picks best_odds)); discriminate.
Qed.

(** C6. For two target prices, [analyze_match] returns an analysis for the
    one exactly when it does for the other, with the same label, time and
    best prices; the candidates in contention are the same in both runs, and
    each run recommends one of them. *)
Theorem target_only_orders (match_ : Match) (t1 t2 : Q) :
  ((exists a1, analyze_match match_ t1 = Ok (Some a1)) <->
   (exists a2, analyze_match match_ t2 = Ok (Some a2))) /\
  (analyze_match match_ t1 = Ok None <-> analyze_match match_ t2 = Ok None) /\
  (forall a1 a2,
     analyze_match match_ t1 = Ok (Some a1) ->
     analyze_match match_ t2 = Ok (Some a2) ->
     a_match a1 = a_match a2 /\
     a_commence_time a1 = a_commence_time a2 /\
     a_odds a1 = a_odds a2 /\
     In (recommendation a1) (make_picks (a_odds a2)) /\
     In (recommendation a2) (make_picks (a_odds a1))) /\
  (forall best_odds p,
     In p (sort_picks t1 (make_picks best_odds)) <->
     In p (sort_picks t2 (make_picks best_odds))) /\
  (forall best_odds,
     Permutation (sort_picks t1 (make_picks best_odds))
                 (sort_picks t2 (make_picks best_odds))).
Proof.
  split; [|split; [|split; [|split]]].
  - split; intros (a & H).
    + apply (analysis_for_any_target _ t1 t2) in H as (a2 & H & _). eauto.
    + apply (analysis_for_any_target _ t2 t1) in H as (a1 & H & _). eauto.
  - split; apply no_analysis_for_any_target.
  - intros a1 a2 H1 H2.
    destruct (analysis_for_any_target _ t1 t2 _ H1)
      as (a2' & H2' & Hl & Ht & Ho & Hin).
    assert (a2' = a2) by congruence. subst a2'.
    split; [congruence|]. split; [congruence|]. split; [congruence|].
    split; [|exact Hin].
    rewrite Ho. apply (recommendation_In _ _ _ H1).
  - intros best_odds p. unfold sort_picks. rewrite !sort_In. reflexivity.
  - intros best_odds. unfold sort_picks.
    apply perm_trans with (make_picks best_odds);
      [apply sort_perm | apply Permutation_sym, sort_perm].
Qed.

Lemma target_only_orders_witness :
  analyze_match two_in_band 1.9
  = Ok (Some (mkAnalysis "Arsenal vs Chelsea" "Unknown"
                (mkBestOdds 1.85 3.40 2.10) (mkPick "HOME" 1.85 65))) /\
  analyze_match two_in_band 2.1
  = Ok (Some (mkAnalysis "Arsenal vs Chelsea" "Unknown"
                (mkBestOdds 1.85 3.40 2.10) (mkPick "AWAY" 2.10 50))) /\
  In (mkPick "HOME" 1.85 65) (make_picks (mkBestOdds 1.85 3.40 2.10)) /\
  In (mkPick "AWAY" 2.10 50) (make_picks (mkBestOdds 1.85 3.40 2.10)).
Proof.
  split; [reflexivity|]. split; [reflexivity|].
  pose proof (proj1 (proj2 (proj2 (target_only_orders two_in_band 1.9 2.1)))
                _ _ eq_refl eq_refl) as (_ & _ & _ & H1 & H2).
  split; [exact H1 | exact H2].
Defined.

(** * The best-price reduction *)

Lemma le_best_odds_refl (b : BestOdds) : le_best_odds b b.
Proof. unfold le_best_odds. auto using Qle_refl. Qed.

Lemma le_best_odds_trans (b1 b2 b3 : BestOdds) :
  le_best_odds b1 b2 -> le_best_odds b2 b3 -> le_best_odds b1 b3.
Proof.
  unfold le_best_odds. intros (H1 & H2 & H3) (K1 & K2 & K3).
  repeat split; eapply Qle_trans; eassumption.
Qed.

Lemma py_max_ge (a : Q) (b : pyval) (v : Q) :
  py_max a b = Ok v -> (a <= v)%Q.
Proof.
  destruct b as [q| |]; simpl; try discriminate. intros H. injection H as <-.
  destruct (Qlt_bool a q) eqn:E.
  - apply Qlt_le_weak, Qlt_bool_iff, E.
  - apply Qle_refl.
Qed.

Lemma update_best_odds_mono (home away : string) (b b' : BestOdds)
  (outcome : Outcome) :
  update_best_odds home away b outcome = Ok b' -> le_best_odds b b'.
Proof.
  unfold update_best_odds, le_best_odds.
  destruct (name_eqb (o_name outcome) home);
    [|destruct (name_eqb (o_name outcome) away)];
    intros H; apply bind_Ok in H as (v & Hmax & Hb');
    injection Hb' as <-; simpl; apply py_max_ge in Hmax;
    auto using Qle_refl.
Qed.

(** A loop whose iterations each move the state upwards moves it upwards. *)
Lemma for_each_mono {X : Type} (body : BestOdds -> X -> result BestOdds)
  (xs : list X) :
  (forall b x b', body b x = Ok b' -> le_best_odds b b') ->
  forall b b', for_each body xs b = Ok b' -> le_best_odds b b'.
Proof.
  intros Hstep b b' Hrun.
  apply (for_each_invariant body (le_best_odds b) xs) with (s := b);
    [|apply le_best_odds_refl|exact Hrun].
  intros s x s' _ Hs Hbody.
  apply le_best_odds_trans with s; [exact Hs | exact (Hstep _ _ _ Hbody)].
Qed.

Lemma for_items_mono {A : Type} (body : BestOdds -> A -> result BestOdds)
  (it : iterable A) :
  (forall b x b', body b x = Ok b' -> le_best_odds b b') ->
  forall b b', for_items body it b = Ok b' -> le_best_odds b b'.
Proof.
  intros Hstep b b'. destruct it as [l| |]; simpl; try discriminate.
  apply for_each_mono. intros b0 [a|] b0'; simpl; [apply Hstep|discriminate].
Qed.

Lemma update_from_market_mono (home away : string) (b b' : BestOdds)
  (market : Market) :
  update_from_market home away b market = Ok b' -> le_best_odds b b'.
Proof.
  unfold update_from_market. destruct (name_eqb (mk_key market) "h2h").
  - apply for_items_mono. intros b0 x b0'. apply update_best_odds_mono.
  - intros H. injection H as <-. apply le_best_odds_refl.
Qed.

Lemma update_from_bookmaker_mono (home away : string) (b b' : BestOdds)
  (bookmaker : Bookmaker) :
  update_from_bookmaker home away b bookmaker = Ok b' -> le_best_odds b b'.
Proof.
  unfold update_from_bookmaker. apply for_items_mono.
  intros b0 x b0'. apply update_from_market_mono.
Qed.

(** Every best price is at least the initial 0. *)
Lemma best_odds_nonneg (match_ : Match) (best_odds : BestOdds) :
  best_odds_of match_ = Ok best_odds -> le_best_odds initial_best_odds best_odds.
Proof.
  unfold best_odds_of, reduce_bookmakers.
  destruct (falsy (dict_get (bookmakers match_) (Items []))).
  - intros H. injection H as <-. apply le_best_odds_refl.
  - apply for_items_mono. intros b0 x b0'. apply update_from_bookmaker_mono.
Qed.

(** ** Which fixtures make the reduction raise *)

Section Loops.
Context {S X : Type}.
Variable body : S -> X -> result S.
Variable ok : X -> bool.
Hypothesis body_ok : forall s x, ok x = true -> exists s', body s x = Ok s'.

Lemma for_each_ok (xs : list X) (s : S) :
  forallb ok xs = true -> exists s', for_each body xs s = Ok s'.
Proof.
  revert s. induction xs as [|x xs IH]; intros s H; simpl in *; [eauto|].
  apply andb_true_iff in H as [Hx Hxs].
  destruct (body_ok s x Hx) as (s1 & ->). simpl. apply IH. exact Hxs.
Qed.

Section Raises.
Hypothesis body_raises :
  forall s x, ok x = false -> exists e, body s x = Raise e.

Lemma for_each_raises (xs : list X) (s : S) :
  forallb ok xs = false -> exists e, for_each body xs s = Raise e.
Proof.
  revert s. induction xs as [|x xs IH]; intros s H; simpl in *;
    [discriminate|].
  destruct (ok x) eqn:Hx; simpl in H.
  - destruct (body_ok s x Hx) as (s1 & ->). simpl. apply IH. exact H.
  - destruct (body_raises s x Hx) as (e & ->). simpl. eauto.
Qed.
End Raises.

Section TypeErrors.
Variable shape : X -> bool.
Hypothesis body_bad :
  forall s x, shape x = true -> ok x = false -> body s x = Raise TypeError.

Lemma for_each_bad (xs : list X) (s : S) :
  forallb shape xs = true -> forallb ok xs = false ->
  for_each body xs s = Raise TypeError.
Proof.
  revert s. induction xs as [|x xs IH]; intros s Hs H; simpl in *;
    [discriminate|].
  apply andb_true_iff in Hs as [Hsx Hsxs].
  destruct (ok x) eqn:Hx; simpl in H.
  - destruct (body_ok s x Hx) as (s1 & ->). simpl. apply IH; assumption.
  - rewrite (body_bad s x Hsx Hx). reflexivity.
Qed.
End TypeErrors.
End Loops.

Section Items.
Context {S A : Type}.
Variable body : S -> A -> result S.
Variable ok : A -> bool.
Hypothesis body_ok : forall s a, ok a = true -> exists s', body s a = Ok s'.

Lemma visit_ok (s : S) (e : element A) :
  element_ok ok e = true -> exists s', visit body s e = Ok s'.
Proof. destruct e as [a|]; simpl; [apply body_ok | discriminate]. Qed.

Lemma for_items_ok (it : iterable A) (s : S) :
  iterable_ok ok it = true -> exists s', for_items body it s = Ok s'.
Proof.
  destruct it as [l| |]; simpl; try discriminate.
  apply for_each_ok. intros s0 e. apply visit_ok.
Qed.

Section ItemsRaise.
Hypothesis body_raises :
  forall s a, ok a = false -> exists e, body s a = Raise e.

Lemma visit_raises (s : S) (e : element A) :
  element_ok ok e = false -> exists e', visit body s e = Raise e'.
Proof. destruct e as [a|]; simpl; [apply body_raises | eauto]. Qed.

Lemma for_items_raises (it : iterable A) (s : S) :
  iterable_ok ok it = false -> exists e, for_items body it s = Raise e.
Proof.
  destruct it as [l| |]; simpl; eauto.
  apply for_each_raises; intros s0 e; [apply visit_ok | apply visit_raises].
Qed.
End ItemsRaise.

Section ItemsTypeError.
Variable shape : A -> bool.
Hypothesis body_bad :
  forall s a, shape a = true -> ok a = false -> body s a = Raise TypeError.

Lemma visit_bad (s : S) (e : element A) :
  element_ok shape e = true -> element_ok ok e = false ->
  visit body s e = Raise TypeError.
Proof. destruct e as [a|]; simpl; [apply body_bad | discriminate]. Qed.

Lemma for_items_bad (it : iterable A) (s : S) :
  iterable_ok shape it = true -> iterable_ok ok it = false ->
  for_items body it s = Raise TypeError.
Proof.
  destruct it as [l| |]; simpl; try discriminate.
  apply for_each_bad; intros s0 e; [apply visit_ok | apply visit_bad].
Qed.
End ItemsTypeError.
End Items.

Lemma update_best_odds_ok (home away : string) (b : BestOdds)
  (outcome : Outcome) :
  outcome_ok outcome = true ->
  exists b', update_best_odds home away b outcome = Ok b'.
Proof.
  unfold outcome_ok, update_best_odds.
  destruct (o_price outcome) as [[q| |]|]; simpl; try discriminate; intros _;
    destruct (name_eqb (o_name outcome) home);
    try destruct (name_eqb (o_name outcome) away); simpl; eauto.
Qed.

Lemma update_best_odds_bad (home away : string) (b : BestOdds)
  (outcome : Outcome) :
  outcome_ok outcome = false ->
  update_best_odds home away b outcome = Raise TypeError.
Proof.
  unfold outcome_ok, update_best_odds.
  destruct (o_price outcome) as [[q| |]|]; simpl; try discriminate; intros _;
    destruct (name_eqb (o_name outcome) home);
    try destruct (name_eqb (o_name outcome) away); reflexivity.
Qed.

Lemma update_from_market_ok (home away : string) (b : BestOdds)
  (market : Market) :
  market_ok market = true ->
  exists b', update_from_market home away b market = Ok b'.
Proof.
  unfold market_ok, update_from_market.
  destruct (name_eqb (mk_key market) "h2h"); simpl; [|eauto].
  apply for_items_ok. intros s a. apply update_best_odds_ok.
Qed.

Lemma update_from_market_raises (home away : string) (b : BestOdds)
  (market : Market) :
  market_ok market = false ->
  exists e, update_from_market home away b market = Raise e.
Proof.
  unfold market_ok, update_from_market.
  destruct (name_eqb (mk_key market) "h2h"); simpl; [|discriminate].
  apply for_items_raises; intros s a H;
    [apply update_best_odds_ok; exact H|].
  exists TypeError. apply update_best_odds_bad. exact H.
Qed.

Lemma update_from_market_bad (home away : string) (b : BestOdds)
  (market : Market) :
  market_shape_ok market = true -> market_ok market = false ->
  update_from_market home away b market = Raise TypeError.
Proof.
  unfold market_shape_ok, market_ok, update_from_market.
  destruct (name_eqb (mk_key market) "h2h"); simpl; [|discriminate].
  apply for_items_bad; intros s a.
  - apply update_best_odds_ok.
  - intros _. apply update_best_odds_bad.
Qed.

Lemma update_from_bookmaker_ok (home away : string) (b : BestOdds)
  (bookmaker : Bookmaker) :
  bookmaker_ok bookmaker = true ->
  exists b', update_from_bookmaker home away b bookmaker = Ok b'.
Proof.
  unfold bookmaker_ok, update_from_bookmaker.
  apply for_items_ok. intros s a. apply update_from_market_ok.
Qed.

Lemma update_from_bookmaker_raises (home away : string) (b : BestOdds)
  (bookmaker : Bookmaker) :
  bookmaker_ok bookmaker = false ->
  exists e, update_from_bookmaker home away b bookmaker = Raise e.
Proof.
  unfold bookmaker_ok, update_from_bookmaker.
  apply for_items_raises; intros s a;
    [apply update_from_market_ok | apply update_from_market_raises].
Qed.

Lemma update_from_bookmaker_bad (home away : string) (b : BestOdds)
  (bookmaker : Bookmaker) :
  bookmaker_shape_ok bookmaker = true -> bookmaker_ok bookmaker = false ->
  update_from_bookmaker home away b bookmaker = Raise TypeError.
Proof.
  unfold bookmaker_shape_ok, bookmaker_ok, update_from_bookmaker.
  apply for_items_bad; intros s a;
    [apply update_from_market_ok | apply update_from_market_bad].
Qed.

Lemma best_odds_of_ok (match_ : Match) :
  prices_ok match_ = true -> exists best_odds, best_odds_of match_ = Ok best_odds.
Proof.
  unfold prices_ok, best_odds_of, reduce_bookmakers.
  destruct (falsy (dict_get (bookmakers match_) (Items []))); simpl; [eauto|].
  apply for_items_ok. intros s a. apply update_from_bookmaker_ok.
Qed.

Lemma best_odds_of_raises (match_ : Match) :
  prices_ok match_ = false -> exists e, best_odds_of match_ = Raise e.
Proof.
  unfold prices_ok, best_odds_of, reduce_bookmakers.
  destruct (falsy (dict_get (bookmakers match_) (Items []))); simpl;
    [discriminate|].
  apply for_items_raises; intros s a;
    [apply update_from_bookmaker_ok | apply update_from_bookmaker_raises].
Qed.

Lemma best_odds_of_bad (match_ : Match) :
  shape_ok match_ = true -> prices_ok match_ = false ->
  best_odds_of match_ = Raise TypeError.
Proof.
  unfold shape_ok, prices_ok, best_odds_of, reduce_bookmakers.
  destruct (falsy (dict_get (bookmakers match_) (Items []))); simpl;
    [discriminate|].
  apply for_items_bad; intros s a;
    [apply update_from_bookmaker_ok | apply update_from_bookmaker_bad].
Qed.

Lemma bind_Ok_id {A : Type} (r : result A) : bind r Ok = r.
Proof. destruct r; reflexivity. Qed.

Lemma best_odds_of_add_bookmaker (match_ : Match) (bookmaker : Bookmaker) :
  best_odds_of (add_bookmaker match_ bookmaker) =
  best_odds <- best_odds_of match_ ;;
  update_from_bookmaker (dict_get (home_team match_) "Unknown")
    (dict_get (away_team match_) "Unknown") best_odds bookmaker.
Proof.
  unfold best_odds_of, reduce_bookmakers, add_bookmaker.
  destruct (dict_get (bookmakers match_) (Items [])) as [l| |] eqn:Hbks.
  - cbn [bookmakers home_team away_team dict_get items_of].
    assert (Hf : falsy (Items (l ++ [Object bookmaker])%list) = false)
      by (destruct l; reflexivity).
    rewrite Hf. cbn [for_items]. rewrite for_each_app.
    destruct l as [|b0 l].
    + simpl. apply bind_Ok_id.
    + cbn [falsy for_items].
      destruct (for_each _ (b0 :: l) initial_best_odds) as [b|e];
        simpl; [apply bind_Ok_id | reflexivity].
  - simpl. apply bind_Ok_id.
  - rewrite Hbks. reflexivity.
Qed.

(** C7. Monotonic reduction: when one more bookmaker quote is appended to a
    fixture's list, none of the home, draw and away values of the best-price
    record is lower than in the record computed without that quote; the new
    record exists whenever the prices of the new quote are numbers or
    absent. *)
Theorem best_odds_monotonic (match_ : Match) (bookmaker : Bookmaker)
  (best_odds : BestOdds) :
  best_odds_of match_ = Ok best_odds ->
  (forall best_odds',
     best_odds_of (add_bookmaker match_ bookmaker) = Ok best_odds' ->
     (bo_home best_odds <= bo_home best_odds')%Q /\
     (bo_draw best_odds <= bo_draw best_odds')%Q /\
     (bo_away best_odds <= bo_away best_odds')%Q) /\
  (bookmaker_ok bookmaker = true ->
   exists best_odds',
     best_odds_of (add_bookmaker match_ bookmaker) = Ok best_odds').
Proof.
  intros Hbest. rewrite best_odds_of_add_bookmaker, Hbest. simpl. split.
  - intros best_odds' H. apply update_from_bookmaker_mono in H. exact H.
  - apply update_from_bookmaker_ok.
Qed.

Lemma best_odds_monotonic_witness :
  best_odds_of arsenal_chelsea = Ok (mkBestOdds 2.00 3.40 3.60) /\
  best_odds_of (add_bookmaker arsenal_chelsea second_quote)
  = Ok (mkBestOdds 2.10 3.40 3.60) /\
  (2.00 <= 2.10)%Q /\ (3.40 <= 3.40)%Q /\ (3.60 <= 3.60)%Q.
Proof.
  split; [reflexivity|]. split; [reflexivity|].
  apply (proj1 (best_odds_monotonic arsenal_chelsea second_quote
                  (mkBestOdds 2.00 3.40 3.60) eq_refl)
           (mkBestOdds 2.10 3.40 3.60) eq_refl).
Defined.

(** * Absent and non-numeric prices *)

Lemma for_each_ext {S X : Type} (body body' : S -> X -> result S)
  (xs : list X) (s : S) :
  (forall s0 x, body s0 x = body' s0 x) ->
  for_each body xs s = for_each body' xs s.
Proof.
  intros H. revert s. induction xs as [|x xs IH]; intros s; simpl;
    [reflexivity|].
  rewrite H. destruct (body' s x); simpl; [apply IH | reflexivity].
Qed.

Lemma for_each_map {S X Y : Type} (body : S -> Y -> result S) (f : X -> Y)
  (xs : list X) (s : S) :
  for_each body (map f xs) s = for_each (fun s0 x => body s0 (f x)) xs s.
Proof.
  revert s. induction xs as [|x xs IH]; intros s; simpl; [reflexivity|].
  destruct (body s (f x)); simpl; [apply IH | reflexivity].
Qed.

Lemma update_best_odds_default (home away : string) (b : BestOdds)
  (outcome : Outcome) :
  update_best_odds home away b (default_price outcome)
  = update_best_odds home away b outcome.
Proof. reflexivity. Qed.

Lemma for_items_ext {S A : Type} (body body' : S -> A -> result S)
  (it : iterable A) (s : S) :
  (forall s0 x, body s0 x = body' s0 x) ->
  for_items body it s = for_items body' it s.
Proof.
  intros H. destruct it as [l| |]; simpl; try reflexivity.
  apply for_each_ext. intros s0 [a|]; simpl; [apply H | reflexivity].
Qed.

Lemma for_items_map {S A B : Type} (body : S -> B -> result S) (f : A -> B)
  (it : iterable A) (s : S) :
  for_items body (map_iterable f it) s
  = for_items (fun s0 x => body s0 (f x)) it s.
Proof.
  destruct it as [l| |]; simpl; try reflexivity.
  rewrite for_each_map. apply for_each_ext. intros s0 [a|]; reflexivity.
Qed.

Lemma falsy_map_iterable {A B : Type} (f : A -> B) (it : iterable A) :
  falsy (map_iterable f it) = falsy it.
Proof. destruct it as [[|e l]| |]; reflexivity. Qed.

Lemma update_from_market_default (home away : string) (b : BestOdds)
  (market : Market) :
  update_from_market home away b (default_market market)
  = update_from_market home away b market.
Proof.
  unfold update_from_market, default_market. simpl.
  destruct (name_eqb (mk_key market) "h2h"); [|reflexivity].
  destruct (mk_outcomes market) as [outcomes|]; simpl; [|reflexivity].
  rewrite for_items_map. apply for_items_ext.
  intros s0 x. apply update_best_odds_default.
Qed.

Lemma update_from_bookmaker_default (home away : string) (b : BestOdds)
  (bookmaker : Bookmaker) :
  update_from_bookmaker home away b (default_bookmaker bookmaker)
  = update_from_bookmaker home away b bookmaker.
Proof.
  unfold update_from_bookmaker, default_bookmaker. simpl.
  destruct (bk_markets bookmaker) as [markets|]; simpl; [|reflexivity].
  rewrite for_items_map. apply for_items_ext.
  intros s0 x. apply update_from_market_default.
Qed.

Lemma reduce_bookmakers_default (home away : string)
  (bks : iterable Bookmaker) :
  reduce_bookmakers home away (map_iterable default_bookmaker bks)
  = reduce_bookmakers home away bks.
Proof.
  unfold reduce_bookmakers. rewrite for_items_map. apply for_items_ext.
  intros s0 x. apply update_from_bookmaker_default.
Qed.

Lemma analyze_match_default (match_ : Match) (target_odds : Q) :
  analyze_match (default_prices match_) target_odds
  = analyze_match match_ target_odds.
Proof.
  unfold analyze_match, default_prices. simpl.
  destruct (bookmakers match_) as [bks|]; simpl; [|reflexivity].
  rewrite falsy_map_iterable, reduce_bookmakers_default. reflexivity.
Qed.

Lemma py_max_zero (a : Q) : (0 <= a)%Q -> py_max a (PNum 0) = Ok a.
Proof.
  intros H. simpl. apply Qlt_bool_false_iff in H. rewrite H. reflexivity.
Qed.

(** C9, as the code has it: a price that is a string makes [analyze_match]
    raise [TypeError], where the price 0 in its place yields no pick. *)
Lemma non_numeric_price_raises :
  analyze_match string_price 2 = Raise TypeError /\
  analyze_match (home_only 0) 2 = Ok None.
Proof. split; reflexivity. Qed.

(** C9, amended. An outcome whose price field is absent is read as the price
    0: the analysis is that of the fixture with 0 written in its place, the
    outcome leaves the best-price record as it was, and 0 is not in the
    band.  A price that is a string or null is not read as 0: on a fixture
    whose bookmakers, markets and h2h outcomes are lists of objects,
    [analyze_match] raises nothing when every price of every h2h market is a
    number or absent, and raises [TypeError] when one of them is a string or
    null. *)
Theorem absent_price_is_zero (match_ : Match) (target_odds : Q) :
  analyze_match (default_prices match_) target_odds
  = analyze_match match_ target_odds /\
  (forall home away best_odds outcome,
     le_best_odds initial_best_odds best_odds ->
     o_price outcome = None ->
     update_best_odds home away best_odds outcome = Ok best_odds) /\
  in_band 0 = false /\
  (prices_ok match_ = true ->
   exists r, analyze_match match_ target_odds = Ok r) /\
  (shape_ok match_ = true -> prices_ok match_ = false ->
   analyze_match match_ target_odds = Raise TypeError).
Proof.
  split; [apply analyze_match_default|]. split; [|split; [reflexivity|]].
  - intros home away [h d a] outcome (Hh & Hd & Ha) Hprice.
    simpl in Hh, Hd, Ha. unfold update_best_odds. rewrite Hprice.
    cbn [dict_get bo_home bo_draw bo_away].
    destruct (name_eqb (o_name outcome) home);
      [|destruct (name_eqb (o_name outcome) away)];
      rewrite py_max_zero by assumption; reflexivity.
  - pose proof (analyze_match_cases match_ target_odds) as Hc. split.
    + intros Hok. destruct (best_odds_of_ok _ Hok) as (best_odds & Hbest).
      rewrite Hbest in Hc.
      destruct (sort_picks target_odds (make_picks best_odds)); eauto.
    + intros Hshape Hbad.
      rewrite (best_odds_of_bad _ Hshape Hbad) in Hc. exact Hc.
Qed.

(** A bookmaker whose markets are null. *)
Definition null_markets : Match :=
  fixture "Arsenal" "Chelsea" [mkBookmaker (Some Null)].

Lemma absent_price_is_zero_witness :
  (exists r, analyze_match absent_price 2 = Ok r) /\
  analyze_match absent_price 2
  = Ok (Some (mkAnalysis "Arsenal vs Chelsea" "Unknown" (mkBestOdds 2.00 0 0)
                (mkPick "HOME" 2.00 65))) /\
  analyze_match string_price 2 = Raise TypeError /\
  prices_ok null_markets = false /\
  analyze_match null_markets 2 = Raise TypeError /\
  analyze_match (mkMatch None None None (Some (Items [NotObject]))) 2
  = Raise AttributeError.
Proof.
  split; [|split; [|split]].
  - apply (proj1 (proj2 (proj2 (proj2 (absent_price_is_zero absent_price 2))))).
    reflexivity.
  - reflexivity.
  - apply (proj2 (proj2 (proj2 (proj2 (absent_price_is_zero string_price 2)))));
      reflexivity.
  - repeat split; reflexivity.
Defined.

(** * The cross-league ranking *)

Lemma analyze_matches_Ok (target_odds : Q) (matches : list Match)
  (all_picks out : list Analysis) :
  for_each (analyze_into target_odds) matches all_picks = Ok out ->
  out = (all_picks ++ analyses_of target_odds matches)%list.
Proof.
  revert all_picks. induction matches as [|m matches IH]; intros all_picks H;
    simpl in H.
  - injection H as <-. simpl. rewrite app_nil_r. reflexivity.
  - apply bind_Ok in H as (acc & Hm & Hrest). apply IH in Hrest. subst out.
    unfold analyze_into in Hm. unfold analyses_of. simpl.
    destruct (analyze_match m target_odds) as [[a|]|e]; simpl in Hm;
      [| |discriminate]; injection Hm as <-.
    + rewrite <- app_assoc. reflexivity.
    + reflexivity.
Qed.

Lemma analyze_league_Ok (get_matches_with_odds : string -> list Match)
  (target_odds : Q) (all_picks out : list Analysis) (league : string) :
  analyze_league get_matches_with_odds target_odds all_picks league = Ok out ->
  out = (all_picks
         ++ analyses_of target_odds (firstn 5 (get_matches_with_odds league)))%list.
Proof. apply analyze_matches_Ok. Qed.

Lemma analyze_leagues_Ok (get_matches_with_odds : string -> list Match)
  (target_odds : Q) (leagues : list string) (all_picks out : list Analysis) :
  for_each (analyze_league get_matches_with_odds target_odds) leagues all_picks
  = Ok out ->
  out = (all_picks ++ fan_out get_matches_with_odds leagues target_odds)%list.
Proof.
  revert all_picks. induction leagues as [|league leagues IH];
    intros all_picks H; simpl in H.
  - injection H as <-. simpl. rewrite app_nil_r. reflexivity.
  - apply bind_Ok in H as (acc & Hl & Hrest). apply IH in Hrest.
    apply analyze_league_Ok in Hl. subst out acc. simpl.
    rewrite <- app_assoc. reflexivity.
Qed.

Lemma collect_picks_Ok (get_matches_with_odds : string -> list Match)
  (leagues : list string) (target_odds : Q) (all_picks : list Analysis) :
  collect_picks get_matches_with_odds leagues target_odds = Ok all_picks ->
  all_picks = fan_out get_matches_with_odds leagues target_odds.
Proof. unfold collect_picks. intros H. apply analyze_leagues_Ok in H. exact H. Qed.

Lemma analyses_of_length (target_odds : Q) (matches : list Match) :
  (List.length (analyses_of target_odds matches) <= List.length matches)%nat.
Proof.
  induction matches as [|m matches IH]; simpl; [lia|].
  rewrite List.length_app.
  destruct (analyze_match m target_odds) as [[a|]|e]; simpl; lia.
Qed.

Lemma more_confident_asym (x y : Analysis) :
  more_confident x y = true -> more_confident y x = false.
Proof. unfold more_confident. rewrite Z.ltb_lt, Z.ltb_ge. lia. Qed.

Lemma more_confident_trans (x y z : Analysis) :
  more_confident y x = false -> more_confident z y = false ->
  more_confident z x = false.
Proof. unfold more_confident. rewrite !Z.ltb_ge. lia. Qed.

(** C4. The list that [find_best_bets] returns is a rearrangement of the
    analyses collected by the fan-out (league order, then fixture order) in
    descending order of confidence, in which the analyses of any one
    confidence value follow one another as they were collected. *)
Theorem ranking_sorted_and_stable
  (get_matches_with_odds : string -> list Match) (leagues : list string)
  (target_odds : Q) (ranked : list Analysis) :
  find_best_bets get_matches_with_odds leagues target_odds = Ok ranked ->
  collect_picks get_matches_with_odds leagues target_odds
  = Ok (fan_out get_matches_with_odds leagues target_odds) /\
  Permutation ranked (fan_out get_matches_with_odds leagues target_odds) /\
  StronglySorted
    (fun x y => confidence (recommendation y) <= confidence (recommendation x))
    ranked /\
  (forall c,
     filter (same_confidence c) ranked
     = filter (same_confidence c)
         (fan_out get_matches_with_odds leagues target_odds)).
Proof.
  unfold find_best_bets. intros H.
  apply bind_Ok in H as (all_picks & Hcollect & Hsort).
  injection Hsort as <-.
  pose proof (collect_picks_Ok _ _ _ _ Hcollect) as Hfan. rewrite <- Hfan.
  split; [exact Hcollect|]. split; [apply sort_perm|]. split.
  - pose proof (sort_sorted more_confident more_confident_asym
                  more_confident_trans all_picks) as Hs.
    eapply StronglySorted_ind with (P := fun l => StronglySorted _ l);
      [constructor | | exact Hs].
    intros a l _ IH Hall. constructor; [exact IH|].
    eapply Forall_impl; [|exact Hall].
    intros b Hb. unfold not_after, more_confident in Hb.
    apply Z.ltb_ge in Hb. exact Hb.
  - intros c. apply sort_filter. intros x y Hx Hy.
    unfold same_confidence in Hx, Hy. unfold more_confident.
    apply Z.eqb_eq in Hx, Hy. apply Z.ltb_ge. lia.
Qed.

Lemma ranking_sorted_and_stable_witness :
  fan_out two_leagues ["soccer_epl"; "soccer_spain_la_liga"] 2
  = [analysis_of "Arsenal vs Chelsea" (mkBestOdds 0 0 2.00) (mkPick "AWAY" 2.00 60);
     analysis_of "Arsenal vs Chelsea" (mkBestOdds 2.10 0 0) (mkPick "HOME" 2.10 55);
     analysis_of "Leeds vs Everton" (mkBestOdds 0 0 2.00) (mkPick "AWAY" 2.00 60);
     analysis_of "Leeds vs Everton" (mkBestOdds 2.00 0 0) (mkPick "HOME" 2.00 65)] /\
  find_best_bets two_leagues ["soccer_epl"; "soccer_spain_la_liga"] 2
  = Ok [analysis_of "Leeds vs Everton" (mkBestOdds 2.00 0 0) (mkPick "HOME" 2.00 65);
        analysis_of "Arsenal vs Chelsea" (mkBestOdds 0 0 2.00) (mkPick "AWAY" 2.00 60);
        analysis_of "Leeds vs Everton" (mkBestOdds 0 0 2.00) (mkPick "AWAY" 2.00 60);
        analysis_of "Arsenal vs Chelsea" (mkBestOdds 2.10 0 0) (mkPick "HOME" 2.10 55)] /\
  (forall c,
     filter (same_confidence c)
       [analysis_of "Leeds vs Everton" (mkBestOdds 2.00 0 0) (mkPick "HOME" 2.00 65);
        analysis_of "Arsenal vs Chelsea" (mkBestOdds 0 0 2.00) (mkPick "AWAY" 2.00 60);
        analysis_of "Leeds vs Everton" (mkBestOdds 0 0 2.00) (mkPick "AWAY" 2.00 60);
        analysis_of "Arsenal vs Chelsea" (mkBestOdds 2.10 0 0) (mkPick "HOME" 2.10 55)]
     = filter (same_confidence c)
         (fan_out two_leagues ["soccer_epl"; "soccer_spain_la_liga"] 2)).
Proof.
  split; [reflexivity|]. split; [reflexivity|].
  apply (ranking_sorted_and_stable two_leagues
           ["soccer_epl"; "soccer_spain_la_liga"] 2 _ eq_refl).
Defined.

(** ** The cap of five fixtures per league *)

Lemma find_best_bets_ext (fetch fetch' : string -> list Match)
  (leagues : list string) (target_odds : Q) :
  (forall league, firstn 5 (fetch' league) = firstn 5 (fetch league)) ->
  find_best_bets fetch' leagues target_odds
  = find_best_bets fetch leagues target_odds.
Proof.
  intros H. unfold find_best_bets, collect_picks. f_equal.
  apply for_each_ext. intros s league. unfold analyze_league.
  rewrite H. reflexivity.
Qed.

Lemma fan_out_length (fetch : string -> list Match) (leagues : list string)
  (target_odds : Q) :
  (List.length (fan_out fetch leagues target_odds)
   <= 5 * List.length leagues)%nat.
Proof.
  induction leagues as [|league leagues IH]; [simpl; lia|].
  unfold fan_out in *. cbn [flat_map List.length].
  rewrite List.length_app.
  pose proof (analyses_of_length target_odds (firstn 5 (fetch league))).
  pose proof (firstn_le_length 5 (fetch league)).
  lia.
Qed.

(** C5. Only the first five fixtures that the data source returns for a
    league are analysed: what a league adds to [all_picks] is the analyses of
    its first five fixtures, at most five of them, and the result of
    [find_best_bets] is the same for any data source that agrees on the first
    five fixtures of every league. *)
Theorem five_fixtures_per_league
  (get_matches_with_odds : string -> list Match) (leagues : list string)
  (target_odds : Q) :
  (forall all_picks league out,
     analyze_league get_matches_with_odds target_odds all_picks league = Ok out ->
     exists added,
       out = (all_picks ++ added)%list /\
       added = analyses_of target_odds
                 (firstn 5 (get_matches_with_odds league)) /\
       (List.length added <= 5)%nat) /\
  (forall fetch',
     (forall league,
        firstn 5 (fetch' league) = firstn 5 (get_matches_with_odds league)) ->
     find_best_bets fetch' leagues target_odds
     = find_best_bets get_matches_with_odds leagues target_odds) /\
  find_best_bets (fun league => firstn 5 (get_matches_with_odds league))
    leagues target_odds
  = find_best_bets get_matches_with_odds leagues target_odds /\
  (forall ranked,
     find_best_bets get_matches_with_odds leagues target_odds = Ok ranked ->
     (List.length ranked <= 5 * List.length leagues)%nat).
Proof.
  split; [|split; [|split]].
  - intros all_picks league out H. apply analyze_league_Ok in H.
    eexists. split; [exact H|]. split; [reflexivity|].
    pose proof (analyses_of_length target_odds
                  (firstn 5 (get_matches_with_odds league))).
    pose proof (firstn_le_length 5 (get_matches_with_odds league)). lia.
  - intros fetch' H. apply find_best_bets_ext. exact H.
  - apply find_best_bets_ext. intros league.
    rewrite firstn_firstn. reflexivity.
  - intros ranked H. unfold find_best_bets in H.
    apply bind_Ok in H as (all_picks & Hcollect & Hsort).
    injection Hsort as <-. apply collect_picks_Ok in Hcollect. subst all_picks.
    rewrite (Permutation_length (sort_perm more_confident _)).
    apply fan_out_length.
Qed.

Lemma five_fixtures_per_league_witness :
  List.length (eight_fixtures "soccer_epl") = 8%nat /\
  List.length (fan_out eight_fixtures ["soccer_epl"] 2) = 5%nat /\
  (exists added,
     [analysis_of "Arsenal vs Chelsea" (mkBestOdds 2.00 0 0) (mkPick "HOME" 2.00 65);
      analysis_of "Arsenal vs Chelsea" (mkBestOdds 2.00 0 0) (mkPick "HOME" 2.00 65);
      analysis_of "Arsenal vs Chelsea" (mkBestOdds 2.00 0 0) (mkPick "HOME" 2.00 65);
      analysis_of "Arsenal vs Chelsea" (mkBestOdds 2.00 0 0) (mkPick "HOME" 2.00 65);
      analysis_of "Arsenal vs Chelsea" (mkBestOdds 2.00 0 0) (mkPick "HOME" 2.00 65)]
     = ([] ++ added)%list /\
     added = analyses_of 2 (firstn 5 (eight_fixtures "soccer_epl")) /\
     (List.length added <= 5)%nat).
Proof.
  split; [reflexivity|]. split; [reflexivity|].
  apply (proj1 (five_fixtures_per_league eight_fixtures ["soccer_epl"] 2)
           [] "soccer_epl" _ eq_refl).
Defined.

(** * Further properties of the reduction *)

Lemma for_each_flat_map {S X Y : Type} (body : S -> Y -> result S)
  (f : X -> list Y) (xs : list X) (s : S) :
  for_each body (flat_map f xs) s
  = for_each (fun s0 x => for_each body (f x) s0) xs s.
Proof.
  revert s. induction xs as [|x xs IH]; intros s; simpl; [reflexivity|].
  rewrite for_each_app.
  destruct (for_each body (f x) s); simpl; [apply IH | reflexivity].
Qed.

Lemma for_each_ext_in {S X : Type} (body body' : S -> X -> result S)
  (xs : list X) (s : S) :
  (forall s0 x, In x xs -> body s0 x = body' s0 x) ->
  for_each body xs s = for_each body' xs s.
Proof.
  revert s. induction xs as [|x xs IH]; intros s H; simpl; [reflexivity|].
  rewrite (H s x (or_introl eq_refl)).
  destruct (body' s x); simpl; [|reflexivity].
  apply IH. intros s0 y Hy. apply H. right. exact Hy.
Qed.

Lemma iterable_ok_impl {A : Type} (ok ok' : A -> bool) (it : iterable A) :
  (forall a, ok a = true -> ok' a = true) ->
  iterable_ok ok it = true -> iterable_ok ok' it = true.
Proof.
  intros H. destruct it as [l| |]; simpl; try discriminate.
  induction l as [|[a|] l IH]; simpl; try discriminate; [reflexivity|].
  rewrite !andb_true_iff. intros [Ha Hl]. auto.
Qed.

Lemma iterable_ok_objects {A : Type} (ok : A -> bool) (it : iterable A) (a : A) :
  iterable_ok ok it = true -> In a (objects_of it) -> ok a = true.
Proof.
  destruct it as [l| |]; simpl; try discriminate. unfold objects_of. simpl.
  induction l as [|[a0|] l IH]; simpl; try discriminate; [intros _ []|].
  rewrite andb_true_iff. intros [Ha Hl] [<-|Hin]; auto.
Qed.

(** On a list of objects the loop runs over the objects. *)
Lemma for_items_objects {S A : Type} (body : S -> A -> result S)
  (ok : A -> bool) (it : iterable A) (s : S) :
  iterable_ok ok it = true ->
  for_items body it s = for_each body (objects_of it) s.
Proof.
  destruct it as [l| |]; simpl; try discriminate. unfold objects_of. simpl.
  revert s. induction l as [|[a|] l IH]; intros s; simpl; try discriminate;
    [reflexivity|].
  rewrite andb_true_iff. intros [_ Hl].
  destruct (body s a); simpl; [apply IH; exact Hl | reflexivity].
Qed.

Lemma market_ok_shape (market : Market) :
  market_ok market = true -> market_shape_ok market = true.
Proof.
  unfold market_ok, market_shape_ok.
  destruct (name_eqb (mk_key market) "h2h"); simpl; [|reflexivity].
  apply iterable_ok_impl. reflexivity.
Qed.

Lemma bookmaker_ok_shape (bookmaker : Bookmaker) :
  bookmaker_ok bookmaker = true -> bookmaker_shape_ok bookmaker = true.
Proof.
  unfold bookmaker_ok, bookmaker_shape_ok. apply iterable_ok_impl.
  apply market_ok_shape.
Qed.

Lemma prices_ok_shape (match_ : Match) :
  prices_ok match_ = true -> shape_ok match_ = true.
Proof.
  unfold prices_ok, shape_ok.
  destruct (falsy (dict_get (bookmakers match_) (Items []))); simpl;
    [reflexivity|].
  apply iterable_ok_impl. apply bookmaker_ok_shape.
Qed.

Lemma update_from_market_lines (home away : string) (b : BestOdds)
  (market : Market) :
  market_shape_ok market = true ->
  update_from_market home away b market
  = for_each (update_best_odds home away) (lines_of_market market) b.
Proof.
  unfold market_shape_ok, update_from_market, lines_of_market.
  destruct (name_eqb (mk_key market) "h2h"); simpl; [|reflexivity].
  apply for_items_objects.
Qed.

Lemma update_from_bookmaker_lines (home away : string) (b : BestOdds)
  (bookmaker : Bookmaker) :
  bookmaker_shape_ok bookmaker = true ->
  update_from_bookmaker home away b bookmaker
  = for_each (update_best_odds home away) (lines_of_bookmaker bookmaker) b.
Proof.
  unfold bookmaker_shape_ok, update_from_bookmaker, lines_of_bookmaker.
  intros H. rewrite (for_items_objects _ _ _ _ H), for_each_flat_map.
  apply for_each_ext_in. intros s0 x Hx. apply update_from_market_lines.
  apply (iterable_ok_objects _ _ _ H Hx).
Qed.

Lemma falsy_objects_of {A : Type} (it : iterable A) :
  falsy it = true -> objects_of it = [].
Proof. destruct it as [[|e l]| |]; try discriminate; reflexivity. Qed.

Lemma best_odds_of_lines (match_ : Match) :
  shape_ok match_ = true ->
  best_odds_of match_
  = for_each (update_best_odds (dict_get (home_team match_) "Unknown")
                (dict_get (away_team match_) "Unknown"))
      (lines_of match_) initial_best_odds.
Proof.
  unfold shape_ok, best_odds_of, lines_of, reduce_bookmakers.
  destruct (falsy (dict_get (bookmakers match_) (Items []))) eqn:Hf; simpl.
  - intros _. rewrite (falsy_objects_of _ Hf). reflexivity.
  - intros H. rewrite (for_items_objects _ _ _ _ H), for_each_flat_map.
    apply for_each_ext_in. intros s0 x Hx. apply update_from_bookmaker_lines.
    apply (iterable_ok_objects _ _ _ H Hx).
Qed.

Lemma best_odds_of_Ok_iff (match_ : Match) :
  (exists best_odds, best_odds_of match_ = Ok best_odds)
  <-> prices_ok match_ = true.
Proof.
  split.
  - intros (best_odds & H). destruct (prices_ok match_) eqn:E; [reflexivity|].
    destruct (best_odds_of_raises _ E) as (e & He). congruence.
  - apply best_odds_of_ok.
Qed.

(** The lines of a fixture whose reduction returns a record. *)
Lemma best_odds_of_Ok_lines (match_ : Match) (best_odds : BestOdds) :
  best_odds_of match_ = Ok best_odds ->
  for_each (update_best_odds (dict_get (home_team match_) "Unknown")
              (dict_get (away_team match_) "Unknown"))
    (lines_of match_) initial_best_odds
  = Ok best_odds.
Proof.
  intros H. rewrite <- best_odds_of_lines; [exact H|].
  apply prices_ok_shape, best_odds_of_Ok_iff. eauto.
Qed.

Lemma le_best_odds_slot (b b' : BestOdds) (s : slot) :
  le_best_odds b b' -> (best_price s b <= best_price s b')%Q.
Proof. intros (H1 & H2 & H3). destruct s; assumption. Qed.

Lemma slot_eq_dec (s s' : slot) : {s = s'} + {s <> s'}.
Proof. decide equality. Qed.

(** One line moves its own slot to the larger of the old value and its
    price, and leaves the two other slots alone. *)
Lemma update_best_odds_slot (home away : string) (b b' : BestOdds)
  (outcome : Outcome) :
  update_best_odds home away b outcome = Ok b' ->
  exists q,
    price_of outcome = PNum q /\
    best_price (slot_of home away outcome) b'
    = (if Qlt_bool (best_price (slot_of home away outcome) b) q then q
       else best_price (slot_of home away outcome) b) /\
    (forall s, s <> slot_of home away outcome ->
       best_price s b' = best_price s b).
Proof.
  unfold update_best_odds, slot_of, price_of.
  destruct (dict_get (o_price outcome) (PNum 0)) as [q| |] eqn:Hprice;
    destruct (name_eqb (o_name outcome) home);
    try destruct (name_eqb (o_name outcome) away);
    simpl; intros H; try discriminate; injection H as <-;
    exists q; (split; [reflexivity|]); (split; [reflexivity|]);
    intros [] Hs; simpl; congruence.
Qed.

Lemma lines_max (home away : string) (ls : list Outcome) (b b' : BestOdds) :
  for_each (update_best_odds home away) ls b = Ok b' ->
  forall s,
    (forall outcome q,
       In outcome ls -> slot_of home away outcome = s ->
       price_of outcome = PNum q -> (q <= best_price s b')%Q) /\
    (best_price s b' = best_price s b \/
     exists outcome,
       In outcome ls /\ slot_of home away outcome = s /\
       price_of outcome = PNum (best_price s b')).
Proof.
  revert b. induction ls as [|x ls IH]; intros b Hrun s; simpl in Hrun.
  - injection Hrun as <-. split; [intros ? ? []|left; reflexivity].
  - apply bind_Ok in Hrun as (b1 & Hx & Hrest).
    destruct (IH b1 Hrest s) as (Hup & Hatt).
    pose proof (for_each_mono _ ls
                  (fun b0 x0 b0' => update_best_odds_mono home away b0 b0' x0)
                  _ _ Hrest) as Hmono.
    apply update_best_odds_slot in Hx as (qx & Hpx & Hown & Hother).
    split.
    + intros outcome q [<-|Hin] Hslot Hprice.
      * rewrite Hpx in Hprice. injection Hprice as <-.
        apply Qle_trans with (best_price s b1);
          [|apply le_best_odds_slot; exact Hmono].
        rewrite <- Hslot, Hown.
        destruct (Qlt_bool (best_price (slot_of home away x) b) qx) eqn:E.
        -- apply Qle_refl.
        -- apply Qlt_bool_false_iff. exact E.
      * apply (Hup outcome q Hin Hslot Hprice).
    + destruct Hatt as [Heq|(outcome & Hin & Hslot & Hprice)].
      * destruct (slot_eq_dec s (slot_of home away x)) as [->|Hne].
        -- rewrite Heq, Hown.
           destruct (Qlt_bool (best_price (slot_of home away x) b) qx) eqn:E.
           ++ right. exists x. split; [left; reflexivity|].
              split; [reflexivity|]. exact Hpx.
           ++ left. reflexivity.
        -- left. rewrite Heq. apply Hother. exact Hne.
      * right. exists outcome. split; [right; exact Hin|]. auto.
Qed.

(** No line of the fixture quotes more than the best price of its outcome. *)
Lemma best_odds_of_bound (match_ : Match) (best_odds : BestOdds)
  (outcome : Outcome) (q : Q) :
  best_odds_of match_ = Ok best_odds ->
  In outcome (lines_of match_) ->
  price_of outcome = PNum q ->
  (q <= best_price
          (slot_of (dict_get (home_team match_) "Unknown")
             (dict_get (away_team match_) "Unknown") outcome)
          best_odds)%Q.
Proof.
  intros H Hin Hprice. apply best_odds_of_Ok_lines in H.
  apply (proj1 (lines_max _ _ _ _ _ H _) outcome q Hin eq_refl Hprice).
Qed.

(** A best price that is not the initial 0 is quoted on a line. *)
Lemma best_odds_of_attained (match_ : Match) (best_odds : BestOdds) (s : slot) :
  best_odds_of match_ = Ok best_odds ->
  best_price s best_odds = 0%Q \/
  exists outcome,
    In outcome (lines_of match_) /\
    slot_of (dict_get (home_team match_) "Unknown")
      (dict_get (away_team match_) "Unknown") outcome = s /\
    price_of outcome = PNum (best_price s best_odds).
Proof.
  intros H. apply best_odds_of_Ok_lines in H.
  destruct (proj2 (lines_max _ _ _ _ _ H s)) as [Heq|Hatt];
    [left|right; exact Hatt].
  rewrite Heq. destruct s; reflexivity.
Qed.

Lemma best_odds_of_slot_nonneg (match_ : Match) (best_odds : BestOdds)
  (s : slot) :
  best_odds_of match_ = Ok best_odds -> (0 <= best_price s best_odds)%Q.
Proof.
  intros H. apply best_odds_nonneg in H.
  apply (le_best_odds_slot _ _ s) in H. destruct s; exact H.
Qed.



(** ** The order of the bookmakers *)

Lemma forallb_Permutation {X : Type} (p : X -> bool) (xs ys : list X) :
  Permutation xs ys -> forallb p xs = forallb p ys.
Proof.
  induction 1 as [|x xs ys _ IH|x y xs|xs ys zs _ IH1 _ IH2]; simpl.
  - reflexivity.
  - rewrite IH. reflexivity.
  - destruct (p x), (p y); reflexivity.
  - congruence.
Qed.

Lemma falsy_orb_forallb {A : Type} (p : element A -> bool)
  (l : list (element A)) :
  (falsy (Items l) || forallb p l)%bool = forallb p l.
Proof. destruct l; reflexivity. Qed.

Lemma prices_ok_Permutation (match_ : Match) (l l' : list (element Bookmaker)) :
  dict_get (bookmakers match_) (Items []) = Items l ->
  Permutation l l' ->
  prices_ok (with_bookmakers match_ (Items l')) = prices_ok match_.
Proof.
  intros Hbks Hperm. unfold prices_ok, with_bookmakers.
  cbn [bookmakers dict_get]. rewrite Hbks. unfold iterable_ok.
  rewrite !falsy_orb_forallb. symmetry.
  apply forallb_Permutation. exact Hperm.
Qed.

Lemma lines_of_Permutation (match_ : Match) (l l' : list (element Bookmaker)) :
  dict_get (bookmakers match_) (Items []) = Items l ->
  Permutation l l' ->
  Permutation (lines_of match_) (lines_of (with_bookmakers match_ (Items l'))).
Proof.
  intros Hbks Hperm. unfold lines_of, with_bookmakers, objects_of.
  cbn [bookmakers dict_get]. rewrite Hbks. cbn [items_of].
  apply Permutation_flat_map, Permutation_flat_map.
  exact Hperm.
Qed.

(** One direction of the comparison of two records of the same lines. *)
Lemma best_price_Permutation_le (m m' : Match) (b b' : BestOdds) (s : slot) :
  dict_get (home_team m') "Unknown" = dict_get (home_team m) "Unknown" ->
  dict_get (away_team m') "Unknown" = dict_get (away_team m) "Unknown" ->
  Permutation (lines_of m) (lines_of m') ->
  best_odds_of m = Ok b -> best_odds_of m' = Ok b' ->
  (best_price s b <= best_price s b')%Q.
Proof.
  intros Hh Ha Hperm Hb Hb'.
  destruct (best_odds_of_attained m b s Hb)
    as [->|(outcome & Hin & Hslot & Hprice)].
  - apply (best_odds_of_slot_nonneg _ _ _ Hb').
  - rewrite <- Hslot, <- Hh, <- Ha.
    apply (best_odds_of_bound m' b' outcome _ Hb');
      [apply (Permutation_in _ Hperm); exact Hin|].
    rewrite Hh, Ha, Hslot. exact Hprice.
Qed.

(** X2. The order of the bookmakers does not matter: a fixture with the
    elements of its bookmaker list rearranged has a best-price record
    exactly when the fixture has one, and the two records hold equal home,
    draw and away prices; when there is none both reductions raise, possibly
    different exceptions. *)
Theorem bookmaker_order_irrelevant (match_ : Match)
  (l l' : list (element Bookmaker)) :
  dict_get (bookmakers match_) (Items []) = Items l ->
  Permutation l l' ->
  (forall best_odds, best_odds_of match_ = Ok best_odds ->
     exists best_odds',
       best_odds_of (with_bookmakers match_ (Items l')) = Ok best_odds' /\
       (bo_home best_odds == bo_home best_odds')%Q /\
       (bo_draw best_odds == bo_draw best_odds')%Q /\
       (bo_away best_odds == bo_away best_odds')%Q) /\
  ((exists e, best_odds_of match_ = Raise e) <->
   (exists e', best_odds_of (with_bookmakers match_ (Items l')) = Raise e')).
Proof.
  intros Hbks Hperm.
  pose proof (lines_of_Permutation _ _ _ Hbks Hperm) as Hlines.
  pose proof (prices_ok_Permutation _ _ _ Hbks Hperm) as Hok.
  split.
  - intros best_odds Hb.
    assert (Hok' : prices_ok (with_bookmakers match_ (Items l')) = true).
    { rewrite Hok. apply best_odds_of_Ok_iff. eauto. }
    destruct (best_odds_of_ok _ Hok') as (best_odds' & Hb').
    exists best_odds'. split; [exact Hb'|].
    assert (Heq : forall s, (best_price s best_odds == best_price s best_odds')%Q).
    { intros s. apply Qle_antisym.
      - apply (best_price_Permutation_le match_
                 (with_bookmakers match_ (Items l'))); auto.
      - apply (best_price_Permutation_le (with_bookmakers match_ (Items l'))
                 match_); auto.
        apply Permutation_sym. exact Hlines. }
    split; [apply (Heq SHome)|]. split; [apply (Heq SDraw)|apply (Heq SAway)].
  - split; intros (e & H).
    + apply best_odds_of_raises. rewrite Hok.
      destruct (prices_ok match_) eqn:E; [|reflexivity].
      destruct (best_odds_of_ok _ E) as (b & Hb). congruence.
    + apply best_odds_of_raises. rewrite <- Hok.
      destruct (prices_ok (with_bookmakers match_ (Items l'))) eqn:E;
        [|reflexivity].
      destruct (best_odds_of_ok _ E) as (b & Hb). congruence.
Qed.

(** The quote of [arsenal_chelsea]. *)
Definition first_quote : Bookmaker :=
  h2h_quote [price_line "Arsenal" 2.00; price_line "Draw" 3.40;
             price_line "Chelsea" 3.60].

(** A bookmaker whose home line carries its price as a string. *)
Definition string_quote : Bookmaker :=
  h2h_quote [mkOutcome (Some "Arsenal") (Some (PStr "2.00"))].

Lemma bookmaker_order_irrelevant_witness :
  best_odds_of (fixture "Arsenal" "Chelsea" [second_quote; first_quote])
  = Ok (mkBestOdds 2.10 3.40 3.60) /\
  (exists best_odds',
     best_odds_of
       (with_bookmakers
          (fixture "Arsenal" "Chelsea" [second_quote; first_quote])
          (Items [Object first_quote; Object second_quote]))
     = Ok best_odds' /\
     (2.10 == bo_home best_odds')%Q /\
     (3.40 == bo_draw best_odds')%Q /\
     (3.60 == bo_away best_odds')%Q) /\
  best_odds_of
    (mkMatch None None None (Some (Items [NotObject; Object string_quote])))
  = Raise AttributeError /\
  best_odds_of
    (mkMatch None None None (Some (Items [Object string_quote; NotObject])))
  = Raise TypeError.
Proof.
  split; [reflexivity|]. split; [|split; reflexivity].
  apply (proj1 (bookmaker_order_irrelevant
                  (fixture "Arsenal" "Chelsea" [second_quote; first_quote])
                  _ _ eq_refl (perm_swap _ _ []))
           (mkBestOdds 2.10 3.40 3.60) eq_refl).
Defined.

(** ** Markets that are not h2h *)

Lemma for_each_filter {S X : Type} (body : S -> X -> result S)
  (keep : X -> bool) (l : list X) (s : S) :
  (forall s0 x, keep x = false -> body s0 x = Ok s0) ->
  for_each body (filter keep l) s = for_each body l s.
Proof.
  intros H. revert s. induction l as [|x l IH]; intros s; simpl;
    [reflexivity|].
  destruct (keep x) eqn:E; simpl.
  - destruct (body s x); simpl; [apply IH | reflexivity].
  - rewrite (H s x E). simpl. apply IH.
Qed.

Lemma update_from_bookmaker_h2h_only (home away : string) (b : BestOdds)
  (bookmaker : Bookmaker) :
  update_from_bookmaker home away b (h2h_only_bookmaker bookmaker)
  = update_from_bookmaker home away b bookmaker.
Proof.
  unfold update_from_bookmaker, h2h_only_bookmaker.
  destruct (bk_markets bookmaker) as [[l| |]|] eqn:E;
    try (rewrite E; reflexivity).
  simpl. apply for_each_filter. intros s0 [m|] H; simpl in *;
    [|discriminate].
  unfold update_from_market. rewrite H. reflexivity.
Qed.

Lemma reduce_bookmakers_h2h_only (home away : string)
  (bks : iterable Bookmaker) :
  reduce_bookmakers home away (map_iterable h2h_only_bookmaker bks)
  = reduce_bookmakers home away bks.
Proof.
  unfold reduce_bookmakers. rewrite for_items_map. apply for_items_ext.
  intros s0 x. apply update_from_bookmaker_h2h_only.
Qed.

(** X3. Markets whose key is not h2h are ignored: such a market leaves the
    record as it is whatever its outcomes hold, and the analysis of a fixture
    is that of the fixture with those markets taken out. *)
Theorem other_markets_ignored (match_ : Match) (target_odds : Q) :
  analyze_match (h2h_only match_) target_odds
  = analyze_match match_ target_odds /\
  (forall home away best_odds market,
     name_eqb (mk_key market) "h2h" = false ->
     update_from_market home away best_odds market = Ok best_odds).
Proof.
  split.
  - unfold analyze_match, h2h_only, with_bookmakers.
    cbn [bookmakers home_team away_team commence_time dict_get].
    rewrite falsy_map_iterable, reduce_bookmakers_h2h_only. reflexivity.
  - intros home away best_odds market H. unfold update_from_market.
    rewrite H. reflexivity.
Qed.

(** ** A quote that improves nothing *)

Lemma lines_no_improvement (home away : string) (ls : list Outcome)
  (b : BestOdds) :
  (forall outcome, In outcome ls ->
     exists q, price_of outcome = PNum q /\
               (q <= best_price (slot_of home away outcome) b)%Q) ->
  for_each (update_best_odds home away) ls b = Ok b.
Proof.
  induction ls as [|x ls IH]; intros H; simpl; [reflexivity|].
  assert (Hx : update_best_odds home away b x = Ok b).
  { destruct (H x (or_introl eq_refl)) as (q & Hprice & Hle).
    unfold update_best_odds. fold (price_of x). rewrite Hprice.
    unfold slot_of in Hle. destruct b as [h d a].
    destruct (name_eqb (o_name x) home);
      [|destruct (name_eqb (o_name x) away)];
      simpl in *; apply Qlt_bool_false_iff in Hle; rewrite Hle; reflexivity. }
  rewrite Hx. simpl. apply IH. intros outcome Hin. apply H. right. exact Hin.
Qed.

Lemma lines_numeric (home away : string) (ls : list Outcome) (b b' : BestOdds) :
  for_each (update_best_odds home away) ls b = Ok b' ->
  forall outcome, In outcome ls -> exists q, price_of outcome = PNum q.
Proof.
  revert b. induction ls as [|x ls IH]; intros b Hrun outcome Hin;
    [destruct Hin|].
  simpl in Hrun. apply bind_Ok in Hrun as (b1 & Hx & Hrest).
  destruct Hin as [<-|Hin].
  - apply update_best_odds_slot in Hx as (q & Hq & _). eauto.
  - apply (IH b1 Hrest outcome Hin).
Qed.

Lemma update_from_bookmaker_Ok_shape (home away : string) (b b' : BestOdds)
  (bookmaker : Bookmaker) :
  update_from_bookmaker home away b bookmaker = Ok b' ->
  bookmaker_shape_ok bookmaker = true.
Proof.
  intros H. apply bookmaker_ok_shape.
  destruct (bookmaker_ok bookmaker) eqn:E; [reflexivity|].
  destruct (update_from_bookmaker_raises home away b _ E) as (e & He).
  congruence.
Qed.

Lemma teams_of_add_bookmaker (match_ : Match) (bookmaker : Bookmaker) :
  home_team (add_bookmaker match_ bookmaker) = home_team match_ /\
  away_team (add_bookmaker match_ bookmaker) = away_team match_.
Proof.
  unfold add_bookmaker.
  destruct (dict_get (bookmakers match_) (Items [])); split; reflexivity.
Qed.

(** X4. A quote that beats no best price changes nothing: when the markets
    and h2h outcomes of the added bookmaker are lists of objects and every
    line of it carries a number that is at most the best price of its
    outcome, the record is the one computed without it; in particular adding
    the same bookmaker a second time changes nothing. *)
Theorem unbeaten_quote_changes_nothing (match_ : Match) (bookmaker : Bookmaker)
  (best_odds : BestOdds) :
  best_odds_of match_ = Ok best_odds ->
  (bookmaker_shape_ok bookmaker = true ->
   (forall outcome, In outcome (lines_of_bookmaker bookmaker) ->
      exists q,
        price_of outcome = PNum q /\
        (q <= best_price
                (slot_of (dict_get (home_team match_) "Unknown")
                   (dict_get (away_team match_) "Unknown") outcome)
                best_odds)%Q) ->
   best_odds_of (add_bookmaker match_ bookmaker) = Ok best_odds) /\
  best_odds_of (add_bookmaker (add_bookmaker match_ bookmaker) bookmaker)
  = best_odds_of (add_bookmaker match_ bookmaker).
Proof.
  intros Hbest. split.
  - intros Hshape H. rewrite best_odds_of_add_bookmaker, Hbest. simpl.
    rewrite (update_from_bookmaker_lines _ _ _ _ Hshape).
    apply lines_no_improvement. exact H.
  - rewrite (best_odds_of_add_bookmaker (add_bookmaker match_ bookmaker)).
    destruct (teams_of_add_bookmaker match_ bookmaker) as [-> ->].
    destruct (best_odds_of (add_bookmaker match_ bookmaker)) as [b1|e] eqn:H1;
      [|reflexivity].
    simpl. rewrite best_odds_of_add_bookmaker, Hbest in H1. simpl in H1.
    pose proof (update_from_bookmaker_Ok_shape _ _ _ _ _ H1) as Hshape.
    rewrite (update_from_bookmaker_lines _ _ best_odds _ Hshape) in H1.
    rewrite (update_from_bookmaker_lines _ _ b1 _ Hshape).
    apply lines_no_improvement. intros outcome Hin.
    destruct (lines_numeric _ _ _ _ _ H1 outcome Hin) as (q & Hprice).
    exists q. split; [exact Hprice|].
    apply (proj1 (lines_max _ _ _ _ _ H1 _) outcome q Hin eq_refl Hprice).
Qed.

(** A quote that is below the prices of [arsenal_chelsea] on every line. *)
Definition lower_quote : Bookmaker :=
  h2h_quote [price_line "Arsenal" 1.95; price_line "Draw" 3.20;
             price_line "Chelsea" 3.60].

Lemma unbeaten_quote_changes_nothing_witness :
  best_odds_of arsenal_chelsea = Ok (mkBestOdds 2.00 3.40 3.60) /\
  best_odds_of (add_bookmaker arsenal_chelsea lower_quote)
  = Ok (mkBestOdds 2.00 3.40 3.60).
Proof.
  split; [reflexivity|].
  apply (proj1 (unbeaten_quote_changes_nothing arsenal_chelsea lower_quote
                  (mkBestOdds 2.00 3.40 3.60) eq_refl)); [reflexivity|].
  intros outcome [<-|[<-|[<-|[]]]]; eexists; (split; [reflexivity|]);
    unfold Qle; simpl; lia.
Defined.

Definition with_totals : Match :=
  fixture "Arsenal" "Chelsea"
    [mkBookmaker
       (Some (objects
                [mkMarket (Some "totals")
                   (Some (objects [mkOutcome (Some "Over") (Some (PStr "1.90"))]));
                 mkMarket (Some "totals") (Some Null);
                 mkMarket (Some "h2h") (Some (objects [price_line "Arsenal" 2.00]))]))].

Lemma other_markets_ignored_witness :
  analyze_match with_totals 2
  = Ok (Some (mkAnalysis "Arsenal vs Chelsea" "Unknown" (mkBestOdds 2.00 0 0)
                (mkPick "HOME" 2.00 65))) /\
  update_from_market "Arsenal" "Chelsea" initial_best_odds
    (mkMarket (Some "totals")
       (Some (objects [mkOutcome (Some "Over") (Some (PStr "1.90"))])))
  = Ok initial_best_odds.
Proof.
  split; [reflexivity|].
  apply (proj2 (other_markets_ignored with_totals 2)). reflexivity.
Defined.

(** * Further properties of the selection *)

(** X5. The recommendation names one of HOME, DRAW and AWAY, and its price
    is the best price of that outcome in the analysis; the label and the
    time of the analysis are those of the fixture, ["Unknown"] standing for
    what the fixture lacks. *)
Theorem pick_matches_best_odds (match_ : Match) (target_odds : Q)
  (a : Analysis) :
  analyze_match match_ target_odds = Ok (Some a) ->
  ((pick (recommendation a) = "HOME" /\
    odds (recommendation a) = bo_home (a_odds a)) \/
   (pick (recommendation a) = "DRAW" /\
    odds (recommendation a) = bo_draw (a_odds a)) \/
   (pick (recommendation a) = "AWAY" /\
    odds (recommendation a) = bo_away (a_odds a))) /\
  best_odds_of match_ = Ok (a_odds a) /\
  a_match a
  = dict_get (home_team match_) "Unknown" ++ " vs "
    ++ dict_get (away_team match_) "Unknown" /\
  a_commence_time a = dict_get (commence_time match_) "Unknown".
Proof.
  intros H. pose proof (recommendation_In _ _ _ H) as Hin.
  apply analyze_match_Some in H as (rest & Hbest & _ & Hlabel & Htime).
  split; [|auto].
  apply make_picks_In in Hin as (outcome & odd & Hitem & _ & ->).
  unfold items in Hitem. simpl in Hitem.
  destruct Hitem as [E|[E|[E|[]]]]; injection E as <- <-; simpl; auto.
Qed.

Lemma pick_matches_best_odds_witness :
  ((pick (recommendation arsenal_chelsea_analysis) = "HOME" /\
    odds (recommendation arsenal_chelsea_analysis)
    = bo_home (a_odds arsenal_chelsea_analysis)) \/
   (pick (recommendation arsenal_chelsea_analysis) = "DRAW" /\
    odds (recommendation arsenal_chelsea_analysis)
    = bo_draw (a_odds arsenal_chelsea_analysis)) \/
   (pick (recommendation arsenal_chelsea_analysis) = "AWAY" /\
    odds (recommendation arsenal_chelsea_analysis)
    = bo_away (a_odds arsenal_chelsea_analysis))) /\
  analyze_match
    (mkMatch None None None (Some (objects [h2h_quote [price_line "Unknown" 2.00]])))
    2
  = Ok (Some (mkAnalysis "Unknown vs Unknown" "Unknown" (mkBestOdds 2.00 0 0)
                (mkPick "HOME" 2.00 65))).
Proof.
  split; [|reflexivity].
  apply (proj1 (pick_matches_best_odds arsenal_chelsea 2
                  arsenal_chelsea_analysis eq_refl)).
Defined.

Lemma filter_none {X : Type} (p : X -> bool) (xs : list X) :
  (forall x, In x xs -> p x = false) -> filter p xs = [].
Proof.
  induction xs as [|x xs IH]; intros H; simpl; [reflexivity|].
  rewrite (H x (or_introl eq_refl)). apply IH.
  intros y Hy. apply H. right. exact Hy.
Qed.

(** The candidate that is strictly closer than those before it and at least
    as close as those after it comes first in the sorted list. *)
Lemma first_closest_sorts_first (target_odds : Q) (before after rest : list Pick)
  (p best : Pick) :
  sort_picks target_odds (before ++ p :: after)%list = best :: rest ->
  (forall x, In x before ->
     (distance target_odds p < distance target_odds x)%Q) ->
  (forall x, In x after ->
     (distance target_odds p <= distance target_odds x)%Q) ->
  best = p.
Proof.
  intros Hsort Hbefore Hafter.
  set (l := (before ++ p :: after)%list) in *.
  set (same := fun x : Pick =>
                 Qeq_bool (distance target_odds x) (distance target_odds p)).
  assert (Hstable : filter same (sort (closer target_odds) l) = filter same l).
  { apply sort_filter. intros x y Hx Hy. unfold same in Hx, Hy.
    apply Qeq_bool_iff in Hx, Hy. unfold closer.
    apply Qlt_bool_false_iff. rewrite Hx, Hy. apply Qle_refl. }
  assert (Hbest_in : In best l).
  { apply (sort_In (closer target_odds)). unfold sort_picks in Hsort.
    rewrite Hsort. left. reflexivity. }
  assert (Hp_min : (distance target_odds p <= distance target_odds best)%Q).
  { unfold l in Hbest_in. apply in_app_or in Hbest_in as [Hb|[<-|Hb]].
    - apply Qlt_le_weak, Hbefore, Hb.
    - apply Qle_refl.
    - apply Hafter, Hb. }
  assert (Hbest_min : (distance target_odds best <= distance target_odds p)%Q).
  { pose proof (sort_head (closer target_odds) (closer_asym target_odds)
                  (closer_trans target_odds) l best rest Hsort p) as Hh.
    unfold closer in Hh. apply Qlt_bool_false_iff. apply Hh.
    unfold l. apply in_or_app. right. left. reflexivity. }
  assert (Hsame_best : same best = true).
  { unfold same. apply Qeq_bool_iff. apply Qle_antisym; assumption. }
  assert (Hsame_p : same p = true).
  { unfold same. apply Qeq_bool_iff. reflexivity. }
  unfold sort_picks in Hsort. rewrite Hsort in Hstable.
  unfold l in Hstable. rewrite filter_app in Hstable. simpl in Hstable.
  rewrite Hsame_best, Hsame_p in Hstable.
  rewrite (filter_none same before) in Hstable.
  - simpl in Hstable. congruence.
  - intros x Hx. unfold same.
    destruct (Qeq_bool (distance target_odds x) (distance target_odds p))
      eqn:E; [|reflexivity].
    apply Qeq_bool_iff in E. specialize (Hbefore x Hx).
    rewrite E in Hbefore. exfalso. exact (Qlt_irrefl _ Hbefore).
Qed.

(** X6. Ties go to the earlier outcome: the recommendation is the candidate
    whose float distance to the target ([abs(price - target_odds)] as the
    code computes it) is strictly below that of the candidates before it in
    the order home, draw, away, and at most that of those after it.  So when
    the home price is in the band and no price in the band has a strictly
    smaller float distance, the pick is HOME. *)
Theorem ties_go_to_the_earlier_outcome (match_ : Match) (target_odds : Q)
  (a : Analysis) :
  analyze_match match_ target_odds = Ok (Some a) ->
  (forall before p after,
     make_picks (a_odds a) = (before ++ p :: after)%list ->
     (forall x, In x before ->
        (Qabs (float_sub (odds p) target_odds)
         < Qabs (float_sub (odds x) target_odds))%Q) ->
     (forall x, In x after ->
        (Qabs (float_sub (odds p) target_odds)
         <= Qabs (float_sub (odds x) target_odds))%Q) ->
     recommendation a = p) /\
  ((1.80 <= bo_home (a_odds a) <= 2.20)%Q ->
   (forall outcome odd,
      In (outcome, odd) (items (a_odds a)) -> (1.80 <= odd <= 2.20)%Q ->
      (Qabs (float_sub (bo_home (a_odds a)) target_odds)
       <= Qabs (float_sub odd target_odds))%Q) ->
   pick (recommendation a) = "HOME").
Proof.
  intros H. apply analyze_match_Some in H as (rest & _ & Hsort & _).
  assert (Hmain : forall before p after,
             make_picks (a_odds a) = (before ++ p :: after)%list ->
             (forall x, In x before ->
                (Qabs (float_sub (odds p) target_odds)
                 < Qabs (float_sub (odds x) target_odds))%Q) ->
             (forall x, In x after ->
                (Qabs (float_sub (odds p) target_odds)
                 <= Qabs (float_sub (odds x) target_odds))%Q) ->
             recommendation a = p).
  { intros before p after Hl Hb Ha. rewrite Hl in Hsort.
    apply (first_closest_sorts_first _ _ _ _ _ _ Hsort Hb Ha). }
  split; [exact Hmain|].
  intros Hband Hmin.
  destruct (make_picks (a_odds a)) as [|p0 tail] eqn:Hpicks.
  { discriminate Hsort. }
  assert (Hp0 : p0 = mkPick "HOME" (bo_home (a_odds a))
                       (Z.min (raw_confidence "home" (bo_home (a_odds a))) 85)).
  { unfold make_picks, items in Hpicks. simpl in Hpicks.
    apply in_band_iff in Hband. rewrite Hband in Hpicks. simpl in Hpicks.
    injection Hpicks as <- _. reflexivity. }
  rewrite (Hmain [] p0 tail eq_refl).
  - rewrite Hp0. reflexivity.
  - intros x [].
  - intros x Hx. rewrite Hp0. cbn [odds].
    assert (Hin : In x (make_picks (a_odds a)))
      by (rewrite Hpicks; right; exact Hx).
    apply make_picks_In in Hin as (outcome & odd & Hitem & Hb & ->).
    cbn [odds].
    apply Hmin with outcome; [exact Hitem | apply in_band_iff, Hb].
Qed.

(** Home at 1.90 and away at 2.10 are equally far from the target 2, also
    as floats. *)
Definition tie : Match :=
  fixture "Arsenal" "Chelsea"
    [h2h_quote [price_line "Arsenal" 1.90; price_line "Draw" 3.40;
                price_line "Chelsea" 2.10]].

(** Home at 1.95 and away at 2.05: the float nearest to 2.05 is closer to 2
    than the float nearest to 1.95. *)
Definition near_tie : Match :=
  fixture "Arsenal" "Chelsea"
    [h2h_quote [price_line "Arsenal" 1.95; price_line "Draw" 3.40;
                price_line "Chelsea" 2.05]].

Lemma ties_go_to_the_earlier_outcome_witness :
  analyze_match tie 2
  = Ok (Some (mkAnalysis "Arsenal vs Chelsea" "Unknown"
                (mkBestOdds 1.90 3.40 2.10) (mkPick "HOME" 1.90 65))) /\
  (Qabs (float_sub 1.90 2) == Qabs (float_sub 2.10 2))%Q /\
  pick (mkPick "HOME" 1.90 65) = "HOME" /\
  analyze_match near_tie 2
  = Ok (Some (mkAnalysis "Arsenal vs Chelsea" "Unknown"
                (mkBestOdds 1.95 3.40 2.05) (mkPick "AWAY" 2.05 50))) /\
  (Qabs (float_sub 2.05 2) < Qabs (float_sub 1.95 2))%Q.
Proof.
  split; [vm_compute; reflexivity|]. split; [vm_compute; reflexivity|].
  split; [|split; vm_compute; reflexivity].
  apply (proj2 (ties_go_to_the_earlier_outcome tie 2
                  (mkAnalysis "Arsenal vs Chelsea" "Unknown"
                     (mkBestOdds 1.90 3.40 2.10) (mkPick "HOME" 1.90 65))
                  eq_refl)).
  - split; vm_compute; discriminate.
  - intros outcome odd [E|[E|[E|[]]]] Hband; injection E as <- <-;
      vm_compute; discriminate.
Defined.

(** * Further properties of the ranking *)


Section LoopResults.
Context {S X : Type}.
Variable body : S -> X -> result S.
Variable returns : X -> Prop.
Variable raises : X -> exn -> Prop.
Hypothesis body_returns :
  forall s x, returns x -> exists s', body s x = Ok s'.
Hypothesis body_Ok : forall s x s', body s x = Ok s' -> returns x.
Hypothesis body_Raise : forall s x e, body s x = Raise e -> raises x e.

Lemma for_each_returns (xs : list X) (s : S) :
  (forall x, In x xs -> returns x) -> exists s', for_each body xs s = Ok s'.
Proof.
  revert s. induction xs as [|x xs IH]; intros s H; simpl; [eauto|].
  destruct (body_returns s x (H x (or_introl eq_refl))) as (s1 & ->). simpl.
  apply IH. intros y Hy. apply H. right. exact Hy.
Qed.

Lemma for_each_Ok_inv (xs : list X) (s s' : S) :
  for_each body xs s = Ok s' -> forall x, In x xs -> returns x.
Proof.
  revert s. induction xs as [|x xs IH]; intros s H y Hy; [destruct Hy|].
  simpl in H. apply bind_Ok in H as (s1 & Hx & Hrest).
  destruct Hy as [<-|Hy]; [apply (body_Ok _ _ _ Hx) | apply (IH _ Hrest y Hy)].
Qed.

End LoopResults.

(** [analyze_match] returns on the fixture. *)
Definition analysis_returns (target_odds : Q) (match_ : Match) : Prop :=
  exists r, analyze_match match_ target_odds = Ok r.

(** [analyze_match] returns on each of the first five fixtures of the
    league. *)
Definition league_returns (get_matches_with_odds : string -> list Match)
  (target_odds : Q) (league : string) : Prop :=
  forall match_,
    In match_ (firstn 5 (get_matches_with_odds league)) ->
    analysis_returns target_odds match_.


Lemma analyze_into_returns (target_odds : Q) (all_picks : list Analysis)
  (match_ : Match) :
  analysis_returns target_odds match_ ->
  exists out, analyze_into target_odds all_picks match_ = Ok out.
Proof.
  intros ([a|] & H); unfold analyze_into; rewrite H; simpl; eauto.
Qed.

Lemma analyze_into_Ok (target_odds : Q) (all_picks out : list Analysis)
  (match_ : Match) :
  analyze_into target_odds all_picks match_ = Ok out ->
  analysis_returns target_odds match_.
Proof.
  unfold analyze_into, analysis_returns.
  destruct (analyze_match match_ target_odds); [eauto|discriminate].
Qed.


Lemma analyze_league_returns (fetch : string -> list Match) (target_odds : Q)
  (all_picks : list Analysis) (league : string) :
  league_returns fetch target_odds league ->
  exists out, analyze_league fetch target_odds all_picks league = Ok out.
Proof.
  intros H. unfold analyze_league.
  apply (for_each_returns _ (analysis_returns target_odds));
    [intros s x; apply analyze_into_returns | exact H].
Qed.

Lemma analyze_league_Ok_inv (fetch : string -> list Match) (target_odds : Q)
  (all_picks out : list Analysis) (league : string) :
  analyze_league fetch target_odds all_picks league = Ok out ->
  league_returns fetch target_odds league.
Proof.
  unfold analyze_league, league_returns. intros H.
  apply (for_each_Ok_inv _ (analysis_returns target_odds)
           (fun s x s' => analyze_into_Ok target_odds s s' x) _ _ _ H).
Qed.


(** When the loops return, the ranking is the sorted fan-out. *)
Lemma find_best_bets_returns (fetch : string -> list Match)
  (leagues : list string) (target_odds : Q) :
  (forall league, In league leagues -> league_returns fetch target_odds league) ->
  find_best_bets fetch leagues target_odds
  = Ok (sort more_confident (fan_out fetch leagues target_odds)).
Proof.
  intros H. unfold find_best_bets.
  destruct (for_each_returns (analyze_league fetch target_odds)
              (league_returns fetch target_odds)
              (fun s x => analyze_league_returns fetch target_odds s x)
              leagues [] H) as (all_picks & Hc).
  fold (collect_picks fetch leagues target_odds) in Hc.
  rewrite Hc. simpl. rewrite (collect_picks_Ok _ _ _ _ Hc). reflexivity.
Qed.

Lemma find_best_bets_Ok_inv (fetch : string -> list Match)
  (leagues : list string) (target_odds : Q) (ranked : list Analysis) :
  find_best_bets fetch leagues target_odds = Ok ranked ->
  forall league, In league leagues -> league_returns fetch target_odds league.
Proof.
  unfold find_best_bets, collect_picks. intros H.
  apply bind_Ok in H as (all_picks & Hc & _).
  apply (for_each_Ok_inv _ (league_returns fetch target_odds)
           (fun s x s' => analyze_league_Ok_inv fetch target_odds s s' x)
           _ _ _ Hc).
Qed.



(** A data source whose first fixture carries a string as its price. *)
Definition bad_first (league : string) : list Match :=
  [string_price; home_only 2.00].

(** A data source whose first fixture has null among its bookmakers. *)
Definition null_bookmaker (league : string) : list Match :=
  [mkMatch (Some "Arsenal") (Some "Chelsea") None (Some (Items [NotObject]))].


Lemma analyses_of_In (target_odds : Q) (matches : list Match) (a : Analysis) :
  In a (analyses_of target_odds matches) <->
  exists match_,
    In match_ matches /\ analyze_match match_ target_odds = Ok (Some a).
Proof.
  unfold analyses_of. rewrite in_flat_map. split.
  - intros (m & Hm & Ha). exists m. split; [exact Hm|].
    destruct (analyze_match m target_odds) as [[a'|]|e]; simpl in Ha;
      try contradiction.
    destruct Ha as [->|[]]. reflexivity.
  - intros (m & Hm & Ha). exists m. split; [exact Hm|].
    rewrite Ha. left. reflexivity.
Qed.

(** X8. What the ranking holds: when [find_best_bets] returns a list, an
    analysis is in it exactly when it is the analysis of one of the first
    five fixtures of one of the leagues; each analysis in it recommends a
    price in the band [1.80, 2.20] with a confidence of 50, 55, 60 or 65. *)
Theorem ranking_members (get_matches_with_odds : string -> list Match)
  (leagues : list string) (target_odds : Q) (ranked : list Analysis) :
  find_best_bets get_matches_with_odds leagues target_odds = Ok ranked ->
  (forall a,
     In a ranked <->
     exists league match_,
       In league leagues /\
       In match_ (firstn 5 (get_matches_with_odds league)) /\
       analyze_match match_ target_odds = Ok (Some a)) /\
  (forall a, In a ranked ->
     (1.80 <= odds (recommendation a) <= 2.20)%Q /\
     In (confidence (recommendation a)) [50; 55; 60; 65]).
Proof.
  unfold find_best_bets. intros H.
  apply bind_Ok in H as (all_picks & Hcollect & Hsort).
  injection Hsort as <-. apply collect_picks_Ok in Hcollect. subst all_picks.
  assert (Hmem : forall a,
             In a (sort more_confident
                     (fan_out get_matches_with_odds leagues target_odds)) <->
             exists league match_,
               In league leagues /\
               In match_ (firstn 5 (get_matches_with_odds league)) /\
               analyze_match match_ target_odds = Ok (Some a)).
  { intros a. rewrite sort_In. unfold fan_out. rewrite in_flat_map. split.
    - intros (league & Hl & Ha). apply analyses_of_In in Ha as (m & Hm & Ha).
      exists league, m. auto.
    - intros (league & m & Hl & Hm & Ha). exists league. split; [exact Hl|].
      apply analyses_of_In. exists m. auto. }
  split; [exact Hmem|].
  intros a Ha. apply Hmem in Ha as (league & m & _ & _ & Ha).
  apply recommendation_In in Ha.
  apply make_picks_In in Ha as (outcome & odd & _ & Hband & ->). simpl.
  split; [apply in_band_iff; exact Hband|].
  pose proof (raw_confidence_values outcome odd) as Hv.
  assert (Hmin : Z.min (raw_confidence outcome odd) 85
                 = raw_confidence outcome odd) by (simpl in Hv; lia).
  rewrite Hmin. exact Hv.
Qed.

Lemma ranking_members_witness :
  (1.80 <= odds (mkPick "HOME" 2.10 55) <= 2.20)%Q /\
  In (confidence (mkPick "HOME" 2.10 55)) [50; 55; 60; 65].
Proof.
  apply (proj2 (ranking_members two_leagues
                  ["soccer_epl"; "soccer_spain_la_liga"] 2 _ eq_refl)
           (analysis_of "Arsenal vs Chelsea" (mkBestOdds 2.10 0 0)
              (mkPick "HOME" 2.10 55))).
  right. right. right. left. reflexivity.
Defined.

(** ** Leagues without fixtures *)

Lemma analyze_league_empty (fetch : string -> list Match) (target_odds : Q)
  (all_picks : list Analysis) (league : string) :
  fetch league = [] ->
  analyze_league fetch target_odds all_picks league = Ok all_picks.
Proof. intros H. unfold analyze_league. rewrite H. reflexivity. Qed.

Lemma find_best_bets_skip (fetch : string -> list Match)
  (before after : list string) (league : string) (target_odds : Q) :
  fetch league = [] ->
  find_best_bets fetch (before ++ league :: after)%list target_odds
  = find_best_bets fetch (before ++ after)%list target_odds.
Proof.
  intros H. unfold find_best_bets, collect_picks. f_equal.
  rewrite !for_each_app.
  destruct (for_each (analyze_league fetch target_odds) before []) as [acc|e];
    simpl; [|reflexivity].
  rewrite (analyze_league_empty _ _ _ _ H). reflexivity.
Qed.

(** * The data source *)

(** What the [try] block of lines 42-53 can see raised: by the transport, by
    [raise_for_status] and by the JSON decoder. *)
Inductive request_exn : Type :=
| ConnectionError
| Timeout
| HTTPError
| JSONDecodeError.

Inductive attempt (A : Type) : Type :=
| Done (a : A)
| Failed (e : request_exn).

Arguments Done {A} a.
Arguments Failed {A} e.

Record Response : Type := mkResponse {
  raise_for_status : attempt unit;
  json : attempt (list Match)
}.

(** [os.environ.get]. *)
Definition environ : Type := string -> option string.

(** Python's truth value of [os.environ.get(k)]: [None] and the empty string
    are false. *)
Definition truthy (value : option string) : bool :=
  match value with
  | Some s => negb (s =? "")%string
  | None => false
  end.

Record FootballIntelligence : Type := mkFootballIntelligence {
  odds_key : option string;
  weather_key : string;
  news_key : string
}.

Inductive constructed : Type :=
| Instance (self : FootballIntelligence)
| ValueError (message : string).

(** Lines 32-38. *)
Definition __init__ (env : environ) : constructed :=
  let self :=
    mkFootballIntelligence (env "ODDS_API_KEY")
      (dict_get (env "WEATHER_API_KEY") "")
      (dict_get (env "NEWS_API_KEY") "") in
  if negb (truthy (odds_key self)) then ValueError "ODDS_API_KEY hiányzik!"
  else Instance self.

(** Lines 165-191, without the messages it writes to the page. *)
Definition check_setup (env : environ) : bool :=
  let key := env "ODDS_API_KEY" in
  if negb (truthy key) then false else true.

Definition odds_url (sport : string) : string :=
  "https://api.the-odds-api.com/v4/sports/" ++ sport ++ "/odds".

Definition odds_params (self : FootballIntelligence)
  : list (string * option string) :=
  [("apiKey", odds_key self); ("regions", Some "eu"); ("markets", Some "h2h");
   ("oddsFormat", Some "decimal")].

(** Lines 40-57: [requests_get url params timeout] is [requests.get]; the
    [except] clause catches whatever the three calls raise, logs it and
    returns the empty list. *)
Definition get_matches_with_odds
  (requests_get : string -> list (string * option string) -> nat
                  -> attempt Response)
  (self : FootballIntelligence) (sport : string) : list Match :=
  match requests_get (odds_url sport) (odds_params self) 15%nat with
  | Failed _ => []
  | Done response =>
    match raise_for_status response with
    | Failed _ => []
    | Done _ =>
      match json response with
      | Failed _ => []
      | Done matches => matches
      end
    end
  end.

(** X9. A league whose request fails contributes nothing and stops nothing:
    when the transport raises, the status is an error or the body is not
    JSON, [get_matches_with_odds] returns the empty list and the ranking is
    the ranking of the other leagues. *)
Theorem failed_league_contributes_nothing
  (requests_get : string -> list (string * option string) -> nat
                  -> attempt Response)
  (self : FootballIntelligence) (before after : list string)
  (league : string) (target_odds : Q) :
  ((exists e,
      requests_get (odds_url league) (odds_params self) 15%nat = Failed e) \/
   (exists response e,
      requests_get (odds_url league) (odds_params self) 15%nat = Done response /\
      (raise_for_status response = Failed e \/ json response = Failed e))) ->
  get_matches_with_odds requests_get self league = [] /\
  find_best_bets (get_matches_with_odds requests_get self)
    (before ++ league :: after)%list target_odds
  = find_best_bets (get_matches_with_odds requests_get self)
      (before ++ after)%list target_odds.
Proof.
  intros H.
  assert (Hempty : get_matches_with_odds requests_get self league = []).
  { unfold get_matches_with_odds.
    destruct H as [(e & ->)|(response & e & -> & [Hs|Hj])]; [reflexivity| |].
    - rewrite Hs. reflexivity.
    - rewrite Hj. destruct (raise_for_status response); reflexivity. }
  split; [exact Hempty|]. apply find_best_bets_skip. exact Hempty.
Qed.

(** A transport that times out for La Liga and answers two fixtures for any
    other league. *)
Definition flaky_get (url : string) (params : list (string * option string))
  (timeout : nat) : attempt Response :=
  if (url =? odds_url "soccer_spain_la_liga")%string then Failed Timeout
  else Done (mkResponse (Done tt) (Done [away_only 2.00; home_only 2.10])).

Definition some_key : FootballIntelligence :=
  mkFootballIntelligence (Some "k") "" "".

Lemma failed_league_contributes_nothing_witness :
  get_matches_with_odds flaky_get some_key "soccer_spain_la_liga" = [] /\
  find_best_bets (get_matches_with_odds flaky_get some_key)
    ["soccer_spain_la_liga"; "soccer_epl"] 2
  = find_best_bets (get_matches_with_odds flaky_get some_key) ["soccer_epl"] 2.
Proof.
  apply (failed_league_contributes_nothing flaky_get some_key []
           ["soccer_epl"] "soccer_spain_la_liga" 2).
  left. exists Timeout. reflexivity.
Defined.

(** X10. The constructor and the page's check agree: [check_setup] holds
    exactly when the constructor returns an instance, which then carries the
    non-empty key of the environment; when the key is missing or empty the
    constructor raises [ValueError]. *)
Theorem check_setup_guards_constructor (env : environ) :
  (check_setup env = true <->
   exists self, __init__ env = Instance self) /\
  (check_setup env = false <->
   __init__ env = ValueError "ODDS_API_KEY hiányzik!") /\
  (forall self, __init__ env = Instance self ->
     exists key,
       odds_key self = Some key /\ key <> "" /\
       env "ODDS_API_KEY" = Some key /\
       weather_key self = dict_get (env "WEATHER_API_KEY") "" /\
       news_key self = dict_get (env "NEWS_API_KEY") "").
Proof.
  unfold check_setup, __init__. simpl.
  destruct (env "ODDS_API_KEY") as [key|] eqn:Hkey; simpl.
  - destruct (key =? "")%string eqn:E; simpl.
    + split; [|split].
      * split; [discriminate | intros (self & H); discriminate].
      * split; reflexivity.
      * intros self H. discriminate.
    + split; [|split].
      * split; [eauto | reflexivity].
      * split; discriminate.
      * intros self H. injection H as <-. simpl. exists key.
        apply String.eqb_neq in E. auto.
  - split; [|split].
    + split; [discriminate | intros (self & H); discriminate].
    + split; reflexivity.
    + intros self H. discriminate.
Qed.

Definition env_with_key (name : string) : option string :=
  if (name =? "ODDS_API_KEY")%string then Some "secret" else None.

Lemma check_setup_guards_constructor_witness :
  check_setup env_with_key = true /\
  (exists self, __init__ env_with_key = Instance self) /\
  __init__ (fun _ => None) = ValueError "ODDS_API_KEY hiányzik!" /\
  __init__ (fun _ => Some "") = ValueError "ODDS_API_KEY hiányzik!".
Proof.
  split; [reflexivity|]. split; [|split].
  - apply (proj1 (proj1 (check_setup_guards_constructor env_with_key))).
    reflexivity.
  - apply (proj1 (proj1 (proj2 (check_setup_guards_constructor (fun _ => None))))).
    reflexivity.
  - apply (proj1 (proj1 (proj2 (check_setup_guards_constructor
                                  (fun _ => Some ""))))).
    reflexivity.
Defined.

(** * The page *)

(** Lines 199-200 of [display_match]. *)
Definition conf_class (conf : Z) : string :=
  if conf >=? 75 then "high-conf" else if conf >=? 60 then "med-conf"
  else "low-conf".

Definition conf_emoji (conf : Z) : string :=
  if conf >=? 75 then "🔥" else if conf >=? 60 then "⚡" else "⚠️".

(** [enumerate(l, start)]. *)
Fixpoint enumerate {A : Type} (l : list A) (start : nat) : list (nat * A) :=
  match l with
  | [] => []
  | x :: l' => (start, x) :: enumerate l' (S start)
  end.

(** Line 307: the recommendations that [main] displays, with their ranks. *)
Definition displayed (results : list Analysis) : list (nat * Analysis) :=
  enumerate (firstn 5 results) 1.

(** [sum(r['recommendation']['confidence'] for r in results)]. *)
Definition sum_confidence (results : list Analysis) : Z :=
  fold_right (fun r acc => confidence (recommendation r) + acc) 0 results.

(** Lines 287-299: nothing is computed for an empty list ([main] warns and
    returns); otherwise the count and the mean confidence. *)
Definition page_stats (results : list Analysis) : option (nat * Q) :=
  match results with
  | [] => None
  | _ :: _ =>
    Some (List.length results,
          (inject_Z (sum_confidence results)
           / inject_Z (Z.of_nat (List.length results)))%Q)
  end.

(** X11. The class and the emoji that [display_match] shows for an analysis
    of [analyze_match] depend on the price alone: medium below 2.05, low
    from 2.05 on; the high class is never shown. *)
Theorem display_class_by_price (match_ : Match) (target_odds : Q)
  (a : Analysis) :
  analyze_match match_ target_odds = Ok (Some a) ->
  conf_class (confidence (recommendation a))
  = (if Qlt_le_dec (odds (recommendation a)) 2.05 then "med-conf"
     else "low-conf") /\
  conf_emoji (confidence (recommendation a))
  = (if Qlt_le_dec (odds (recommendation a)) 2.05 then "⚡" else "⚠️") /\
  conf_class (confidence (recommendation a)) <> "high-conf".
Proof.
  intros H. apply recommendation_In in H.
  apply make_picks_In in H as (outcome & odd & _ & _ & ->). simpl.
  unfold raw_confidence, conf_class, conf_emoji.
  destruct (Qlt_le_dec odd 2.05) as [Hlt|Hle].
  - apply Qlt_bool_iff in Hlt. rewrite Hlt.
    destruct (outcome =? "home")%string; simpl; repeat split; discriminate.
  - apply Qlt_bool_false_iff in Hle. rewrite Hle.
    destruct (outcome =? "home")%string; simpl; repeat split; discriminate.
Qed.

Lemma display_class_by_price_witness :
  conf_class (confidence (recommendation arsenal_chelsea_analysis))
  = "med-conf" /\
  conf_class 55 = "low-conf".
Proof.
  split; [|reflexivity].
  apply (proj1 (display_class_by_price arsenal_chelsea 2
                  arsenal_chelsea_analysis eq_refl)).
Defined.

Lemma enumerate_fst {A : Type} (l : list A) (start : nat) :
  map fst (enumerate l start) = seq start (List.length l).
Proof.
  revert start. induction l as [|x l IH]; intros start; simpl; [reflexivity|].
  rewrite IH. reflexivity.
Qed.

Lemma enumerate_snd {A : Type} (l : list A) (start : nat) :
  map snd (enumerate l start) = l.
Proof.
  revert start. induction l as [|x l IH]; intros start; simpl; [reflexivity|].
  rewrite IH. reflexivity.
Qed.

Lemma StronglySorted_app_inv {A : Type} (R : A -> A -> Prop) (l1 l2 : list A) :
  StronglySorted R (l1 ++ l2)%list ->
  forall x y, In x l1 -> In y l2 -> R x y.
Proof.
  induction l1 as [|z l1 IH]; intros Hs x y Hx Hy; [destruct Hx|].
  simpl in Hs. inversion Hs as [|? ? Hrest Hall]; subst.
  destruct Hx as [<-|Hx].
  - rewrite Forall_forall in Hall. apply Hall. apply in_or_app. right. exact Hy.
  - apply (IH Hrest x y Hx Hy).
Qed.

(** X12. What the page displays of a ranking: at most five recommendations,
    numbered 1, 2, ... without gaps or repeats, which are the head of the
    ranking; no recommendation left out has a higher confidence than one
    that is displayed. *)
Theorem displayed_are_the_top_five
  (get_matches_with_odds : string -> list Match) (leagues : list string)
  (target_odds : Q) (ranked : list Analysis) :
  find_best_bets get_matches_with_odds leagues target_odds = Ok ranked ->
  map fst (displayed ranked) = seq 1 (Nat.min 5 (List.length ranked)) /\
  NoDup (map fst (displayed ranked)) /\
  map snd (displayed ranked) = firstn 5 ranked /\
  (forall shown hidden,
     In shown (map snd (displayed ranked)) -> In hidden (skipn 5 ranked) ->
     confidence (recommendation hidden) <= confidence (recommendation shown)).
Proof.
  unfold find_best_bets, displayed. intros H.
  apply bind_Ok in H as (all_picks & _ & Hsort). injection Hsort as <-.
  rewrite enumerate_fst, enumerate_snd, length_firstn.
  split; [reflexivity|]. split; [apply seq_NoDup|]. split; [reflexivity|].
  intros shown hidden Hshown Hhidden.
  pose proof (sort_sorted more_confident more_confident_asym
                more_confident_trans all_picks) as Hs.
  rewrite <- (firstn_skipn 5 (sort more_confident all_picks)) in Hs.
  pose proof (StronglySorted_app_inv _ _ _ Hs shown hidden Hshown Hhidden)
    as Hr.
  unfold not_after, more_confident in Hr. apply Z.ltb_ge in Hr. exact Hr.
Qed.

(** A league of five fixtures at confidence 55 followed by one at 65; read
    as two leagues it yields six analyses. *)
Definition six_analyses (league : string) : list Match :=
  if (league =? "soccer_epl")%string then
    [home_only 2.10; home_only 2.10; home_only 2.10; home_only 2.10;
     home_only 2.10]
  else [home_only 2.00].

Lemma displayed_are_the_top_five_witness :
  map fst (displayed
             [analysis_of "Arsenal vs Chelsea" (mkBestOdds 2.00 0 0) (mkPick "HOME" 2.00 65);
              analysis_of "Arsenal vs Chelsea" (mkBestOdds 2.10 0 0) (mkPick "HOME" 2.10 55);
              analysis_of "Arsenal vs Chelsea" (mkBestOdds 2.10 0 0) (mkPick "HOME" 2.10 55);
              analysis_of "Arsenal vs Chelsea" (mkBestOdds 2.10 0 0) (mkPick "HOME" 2.10 55);
              analysis_of "Arsenal vs Chelsea" (mkBestOdds 2.10 0 0) (mkPick "HOME" 2.10 55);
              analysis_of "Arsenal vs Chelsea" (mkBestOdds 2.10 0 0) (mkPick "HOME" 2.10 55)])
  = seq 1 (Nat.min 5 6).
Proof.
  apply (proj1 (displayed_are_the_top_five six_analyses
                  ["soccer_epl"; "soccer_uefa_champs_league"] 2 _ eq_refl)).
Defined.

Lemma sum_confidence_bounds (results : list Analysis) :
  (forall a, In a results -> 50 <= confidence (recommendation a) <= 65) ->
  50 * Z.of_nat (List.length results) <= sum_confidence results
  <= 65 * Z.of_nat (List.length results).
Proof.
  induction results as [|r results IH]; intros H.
  - simpl. lia.
  - assert (Hr := H r (or_introl eq_refl)).
    assert (IH' := IH (fun a Ha => H a (or_intror Ha))).
    change (sum_confidence (r :: results))
      with (confidence (recommendation r) + sum_confidence results).
    change (List.length (r :: results)) with (S (List.length results)).
    lia.
Qed.

(** X13. The mean confidence on the page: for a ranking returned by
    [find_best_bets] the statistics are computed exactly when the ranking is
    not empty, the count is the length of the ranking, and the mean
    confidence lies between 50 and 65. *)
Theorem mean_confidence_bounds
  (get_matches_with_odds : string -> list Match) (leagues : list string)
  (target_odds : Q) (ranked : list Analysis) :
  find_best_bets get_matches_with_odds leagues target_odds = Ok ranked ->
  (page_stats ranked = None <-> ranked = []) /\
  (forall count mean,
     page_stats ranked = Some (count, mean) ->
     count = List.length ranked /\ (0 < count)%nat /\
     (50 <= mean <= 65)%Q).
Proof.
  intros H. split.
  - destruct ranked; simpl; split; intros E; try reflexivity; discriminate.
  - intros count mean Hstats.
    assert (Hconf : forall a, In a ranked ->
                      50 <= confidence (recommendation a) <= 65).
    { unfold find_best_bets in H.
      apply bind_Ok in H as (all_picks & Hcollect & Hsort).
      injection Hsort as <-. apply collect_picks_Ok in Hcollect.
      subst all_picks. intros a Ha. apply sort_In in Ha.
      unfold fan_out in Ha. apply in_flat_map in Ha as (league & _ & Ha).
      apply analyses_of_In in Ha as (m & _ & Ha).
      apply recommendation_In in Ha.
      apply make_picks_In in Ha as (outcome & odd & _ & _ & ->). simpl.
      pose proof (raw_confidence_values outcome odd) as Hv. simpl in Hv. lia. }
    apply sum_confidence_bounds in Hconf.
    destruct ranked as [|r ranked]; [discriminate|].
    unfold page_stats in Hstats. injection Hstats as <- <-.
    split; [reflexivity|]. split; [simpl; lia|].
    set (n := List.length (r :: ranked)) in *.
    assert (Hn : (0 < inject_Z (Z.of_nat n))%Q).
    { change 0%Q with (inject_Z 0). rewrite <- Zlt_Qlt. unfold n. simpl. lia. }
    split.
    + apply Qle_shift_div_l; [exact Hn|].
      change 50%Q with (inject_Z 50). rewrite <- inject_Z_mult, <- Zle_Qle.
      unfold n in *. simpl in Hconf |- *. lia.
    + apply Qle_shift_div_r; [exact Hn|].
      change 65%Q with (inject_Z 65). rewrite <- inject_Z_mult, <- Zle_Qle.
      unfold n in *. simpl in Hconf |- *. lia.
Qed.

Lemma mean_confidence_bounds_witness :
  page_stats
    [analysis_of "Leeds vs Everton" (mkBestOdds 2.00 0 0) (mkPick "HOME" 2.00 65);
     analysis_of "Arsenal vs Chelsea" (mkBestOdds 0 0 2.00) (mkPick "AWAY" 2.00 60);
     analysis_of "Leeds vs Everton" (mkBestOdds 0 0 2.00) (mkPick "AWAY" 2.00 60);
     analysis_of "Arsenal vs Chelsea" (mkBestOdds 2.10 0 0) (mkPick "HOME" 2.10 55)]
  = Some (4%nat, (inject_Z 240 / inject_Z 4)%Q) /\
  (50 <= inject_Z 240 / inject_Z 4 <= 65)%Q.
Proof.
  split; [reflexivity|].
  apply (proj2 (mean_confidence_bounds two_leagues
                  ["soccer_epl"; "soccer_spain_la_liga"] 2 _ eq_refl)
           4%nat (inject_Z 240 / inject_Z 4)%Q eq_refl).
Defined.

(** * The order of the leagues *)

(** Two descending lists of integers with the same elements are equal. *)
Lemma descending_unique (l l' : list Z) :
  StronglySorted Z.ge l -> StronglySorted Z.ge l' -> Permutation l l' ->
  l = l'.
Proof.
  revert l'. induction l as [|x l IH]; intros l' Hs Hs' Hp.
  - apply Permutation_nil in Hp. congruence.
  - destruct l' as [|y l'].
    { apply Permutation_sym, Permutation_nil in Hp. discriminate. }
    inversion Hs as [|? ? Hl Hx]; subst.
    inversion Hs' as [|? ? Hl' Hy]; subst.
    rewrite Forall_forall in Hx, Hy.
    assert (Hxy : x = y).
    { assert (In x (y :: l')) as [->|Hin]
        by (apply (Permutation_in _ Hp); left; reflexivity);
        [reflexivity|].
      assert (In y (x :: l)) as [->|Hin']
        by (apply (Permutation_in _ (Permutation_sym Hp)); left; reflexivity);
        [reflexivity|].
      specialize (Hx _ Hin'). specialize (Hy _ Hin). lia. }
    subst y. f_equal. apply IH; [exact Hl | exact Hl'|].
    apply (Permutation_cons_inv Hp).
Qed.

Lemma ranking_descending (all_picks : list Analysis) :
  StronglySorted Z.ge
    (map (fun a => confidence (recommendation a))
       (sort more_confident all_picks)).
Proof.
  pose proof (sort_sorted more_confident more_confident_asym
                more_confident_trans all_picks) as Hs.
  induction Hs as [|a l _ IH Hall]; simpl; constructor; [exact IH|].
  apply Forall_forall. intros c Hc. apply in_map_iff in Hc as (b & <- & Hb).
  rewrite Forall_forall in Hall. specialize (Hall b Hb).
  unfold not_after, more_confident in Hall. apply Z.ltb_ge in Hall. lia.
Qed.

Lemma find_best_bets_Permutation (fetch : string -> list Match)
  (leagues leagues' : list string) (target_odds : Q) (ranked : list Analysis) :
  Permutation leagues leagues' ->
  find_best_bets fetch leagues target_odds = Ok ranked ->
  ranked = sort more_confident (fan_out fetch leagues target_odds) /\
  find_best_bets fetch leagues' target_odds
  = Ok (sort more_confident (fan_out fetch leagues' target_odds)).
Proof.
  intros Hperm H.
  pose proof (find_best_bets_Ok_inv _ _ _ _ H) as Hret. split.
  - rewrite (find_best_bets_returns _ _ _ Hret) in H. congruence.
  - apply find_best_bets_returns. intros league Hl. apply Hret.
    apply (Permutation_in _ (Permutation_sym Hperm) Hl).
Qed.

(** X14. The order of the leagues only moves ties: with the leagues
    rearranged, [find_best_bets] returns a list exactly when it did, the new
    list holds the same analyses and the same sequence of confidences; when
    it raised it raises again, possibly another exception. *)
Theorem league_order_only_moves_ties
  (get_matches_with_odds : string -> list Match) (leagues leagues' : list string)
  (target_odds : Q) :
  Permutation leagues leagues' ->
  (forall ranked,
     find_best_bets get_matches_with_odds leagues target_odds = Ok ranked ->
     exists ranked',
       find_best_bets get_matches_with_odds leagues' target_odds = Ok ranked' /\
       Permutation ranked ranked' /\
       map (fun a => confidence (recommendation a)) ranked
       = map (fun a => confidence (recommendation a)) ranked') /\
  ((exists e,
      find_best_bets get_matches_with_odds leagues target_odds = Raise e) <->
   (exists e',
      find_best_bets get_matches_with_odds leagues' target_odds = Raise e')).
Proof.
  intros Hperm. split.
  - intros ranked H.
    destruct (find_best_bets_Permutation _ _ _ _ _ Hperm H) as (-> & H').
    eexists. split; [exact H'|].
    assert (Hp : Permutation
                   (sort more_confident
                      (fan_out get_matches_with_odds leagues target_odds))
                   (sort more_confident
                      (fan_out get_matches_with_odds leagues' target_odds))).
    { apply perm_trans
        with (fan_out get_matches_with_odds leagues target_odds);
        [apply sort_perm|].
      apply perm_trans
        with (fan_out get_matches_with_odds leagues' target_odds);
        [|apply Permutation_sym, sort_perm].
      unfold fan_out. apply Permutation_flat_map. exact Hperm. }
    split; [exact Hp|].
    apply descending_unique; try apply ranking_descending.
    apply Permutation_map. exact Hp.
  - split; intros (e & H).
    + destruct (find_best_bets get_matches_with_odds leagues' target_odds)
        as [ranked'|e'] eqn:H'; [|eauto].
      destruct (find_best_bets_Permutation _ _ _ _ _
                  (Permutation_sym Hperm) H') as (_ & H2).
      congruence.
    + destruct (find_best_bets get_matches_with_odds leagues target_odds)
        as [ranked|e0] eqn:H0; [|eauto].
      destruct (find_best_bets_Permutation _ _ _ _ _ Hperm H0) as (_ & H2).
      congruence.
Qed.

(** The first league raises [AttributeError], the second [TypeError]. *)
Definition two_bad_leagues (league : string) : list Match :=
  if (league =? "soccer_epl")%string then null_bookmaker league
  else bad_first league.

Lemma league_order_only_moves_ties_witness :
  find_best_bets two_leagues ["soccer_spain_la_liga"; "soccer_epl"] 2
  = Ok [analysis_of "Leeds vs Everton" (mkBestOdds 2.00 0 0) (mkPick "HOME" 2.00 65);
        analysis_of "Leeds vs Everton" (mkBestOdds 0 0 2.00) (mkPick "AWAY" 2.00 60);
        analysis_of "Arsenal vs Chelsea" (mkBestOdds 0 0 2.00) (mkPick "AWAY" 2.00 60);
        analysis_of "Arsenal vs Chelsea" (mkBestOdds 2.10 0 0) (mkPick "HOME" 2.10 55)] /\
  (exists ranked',
    find_best_bets two_leagues ["soccer_spain_la_liga"; "soccer_epl"] 2
    = Ok ranked' /\
    Permutation
      [analysis_of "Leeds vs Everton" (mkBestOdds 2.00 0 0) (mkPick "HOME" 2.00 65);
       analysis_of "Arsenal vs Chelsea" (mkBestOdds 0 0 2.00) (mkPick "AWAY" 2.00 60);
       analysis_of "Leeds vs Everton" (mkBestOdds 0 0 2.00) (mkPick "AWAY" 2.00 60);
       analysis_of "Arsenal vs Chelsea" (mkBestOdds 2.10 0 0) (mkPick "HOME" 2.10 55)]
      ranked' /\
    [65; 60; 60; 55] = map (fun a => confidence (recommendation a)) ranked') /\
  find_best_bets two_bad_leagues ["soccer_epl"; "soccer_spain_la_liga"] 2
  = Raise AttributeError /\
  find_best_bets two_bad_leagues ["soccer_spain_la_liga"; "soccer_epl"] 2
  = Raise TypeError.
Proof.
  split; [reflexivity|]. split; [|split; reflexivity].
  apply (proj1 (league_order_only_moves_ties two_leagues
                  ["soccer_epl"; "soccer_spain_la_liga"]
                  ["soccer_spain_la_liga"; "soccer_epl"] 2
                  (perm_swap _ _ []))
           _ eq_refl).
Defined.
